(** * React interview questions study app ([app.py]): a shallow embedding

    [app.py] is a Streamlit script: every user action re-executes the whole
    file from top to bottom against the session state.  The embedding below
    follows the file section by section: the data loader, the session state,
    the sidebar filter, and the three pages.  One execution of the file is
    the function [script]; [run] adds the re-execution that [st.rerun()]
    requests.

    Python values are represented as follows.
    - [int] is [Z]; [%] is Python's floor modulo, which is [Z.modulo] for a
      positive modulus.
    - [str] is [string]; the regular-expression model below is concrete on
      7-bit text and defers to a parameter elsewhere.
    - [set] is [gset Z]; [set.remove] raises [KeyError] on an absent
      element.
    - a [DataFrame] is a list of labelled columns; the pages work on its
      rows as [Question] records. *)

From Stdlib Require Import ZArith Ascii String List Lia Bool Sorted DecimalString.
From stdpp Require Import base gmap strings list.

Local Open Scope string_scope.
Local Open Scope Z_scope.

(** ** Data frames and the question table *)

Inductive cell : Type :=
  | IntCell (z : Z)
  | StrCell (s : string).

(** Column label and column values, in column order. *)
Definition DataFrame : Type := list (string * list cell).

Definition columns (df : DataFrame) : list string := map fst df.

(** [df[label]]; [None] stands for [KeyError]. *)
Fixpoint column (label : string) (df : DataFrame) : option (list cell) :=
  match df with
  | [] => None
  | (l, vs) :: rest => if String.eqb l label then Some vs else column label rest
  end.

Record Question : Type := mkQuestion {
  ID : Z;
  Category : string;
  Question_ : string;
  Answer : string
}.

Fixpoint zip_rows (ids cats qs ans : list cell) : option (list Question) :=
  match ids, cats, qs, ans with
  | [], [], [], [] => Some []
  | IntCell i :: ids', StrCell c :: cats', StrCell q :: qs', StrCell a :: ans' =>
      match zip_rows ids' cats' qs' ans' with
      | Some rows => Some (mkQuestion i c q a :: rows)
      | None => None
      end
  | _, _, _, _ => None
  end.

(** The rows of a frame as the pages read them ([row['ID']],
    [row['Category']], ...).  [None] when one of the four columns is absent
    (indexing it raises [KeyError]) or holds cells of another dtype, which
    this development does not cover. *)
Definition records (df : DataFrame) : option (list Question) :=
  match column "ID" df, column "Category" df, column "Question" df, column "Answer" df with
  | Some ids, Some cats, Some qs, Some ans => zip_rows ids cats qs ans
  | _, _, _, _ => None
  end.

(** ** Data loading *)

Definition create_demo_data : DataFrame :=
  [ ("ID", [IntCell 1; IntCell 2; IntCell 3; IntCell 501; IntCell 502]);
    ("Category", [StrCell "Basics"; StrCell "Hooks"; StrCell "Components";
                  StrCell "System Design"; StrCell "System Design"]);
    ("Question", [StrCell "What is React?";
                  StrCell "What is useEffect?";
                  StrCell "Difference between Class and Functional components?";
                  StrCell "Design an Infinite Scroll feed.";
                  StrCell "Architect a Real-Time Chat App."]);
    ("Answer", [StrCell "A JS library for building UIs.";
                StrCell "A hook for side effects.";
                StrCell "Class uses this.state, Func uses hooks.";
                StrCell "Use Virtualization (Windowing) and DOM recycling.";
                StrCell "Use WebSockets, Optimistic UI, and IndexedDB."]) ].

(** What [pd.read_csv(FILE_PATH)] does on an existing file. *)
Inductive ReadCsv : Type :=
  | ReadRaises (e : string)
  | ReadFrame (df : DataFrame).

(** The state of [FILE_PATH]: [os.path.exists] is false, or the file is
    there and reading it behaves as given. *)
Inductive Source : Type :=
  | Missing
  | Existing (r : ReadCsv).

Definition required_cols : list string := ["ID"; "Category"; "Question"; "Answer"].

(** The result of [load_data]: the frame returned, the [st.error] boxes
    shown, and the frame written to [FILE_PATH] by [df.to_csv], if any. *)
Record Loaded : Type := mkLoaded {
  frame : DataFrame;
  errors : list string;
  written : option DataFrame
}.

Definition empty_frame (cols : list string) : DataFrame :=
  map (fun c => (c, [])) cols.

Definition load_data (src : Source) : Loaded :=
  match src with
  | Missing => mkLoaded create_demo_data [] (Some create_demo_data)
  | Existing (ReadFrame df) =>
      if forallb (fun col => bool_decide (col ∈ columns df)) required_cols
      then mkLoaded df [] None
      else mkLoaded (empty_frame required_cols)
             ["CSV is missing required columns: ID, Category, Question, Answer"] None
  | Existing (ReadRaises e) =>
      mkLoaded (empty_frame []) ["Error loading data: " ++ e] None
  end.

(** The demo table as rows. *)
Definition demo_table : list Question :=
  [ mkQuestion 1 "Basics" "What is React?" "A JS library for building UIs.";
    mkQuestion 2 "Hooks" "What is useEffect?" "A hook for side effects.";
    mkQuestion 3 "Components" "Difference between Class and Functional components?"
      "Class uses this.state, Func uses hooks.";
    mkQuestion 501 "System Design" "Design an Infinite Scroll feed."
      "Use Virtualization (Windowing) and DOM recycling.";
    mkQuestion 502 "System Design" "Architect a Real-Time Chat App."
      "Use WebSockets, Optimistic UI, and IndexedDB." ].

(** ** Case-insensitive regular-expression search

    [Series.str.contains(pat, case=False)] is called without [regex=False],
    so pandas compiles [pat] with [re.compile(pat, re.IGNORECASE)] and tests
    each element with [search].  The fragment of [re] that is modelled
    concretely:
    - a pattern made of ordinary 7-bit characters and [.] only: an ordinary
      character matches itself up to letter case, [.] matches any character
      but a newline;
    - a pattern whose first character is a repeat operator ([*], [+], [?])
      is rejected with [re.error] ("nothing to repeat").
    Every other pattern, and every subject holding a character beyond 7
    bits, is left to the parameters of the section below. *)

Definition code (c : ascii) : N := N_of_ascii c.

Definition is_ascii7 (c : ascii) : bool := (code c <? 128)%N.

Definition lower (c : ascii) : ascii :=
  if ((65 <=? code c) && (code c <=? 90))%N then ascii_of_N (code c + 32) else c.

Definition chars (s : string) : list ascii := list_ascii_of_string s.

Definition lower_str (s : string) : list ascii := map lower (chars s).

(** The characters [re] treats specially outside a character class,
    together with the two closing brackets. *)
Definition special_chars : list ascii := chars ".\[{()*+?^$|]}".

Definition is_special (c : ascii) : bool :=
  existsb (Ascii.eqb c) special_chars.

Definition is_repeat (c : ascii) : bool :=
  existsb (Ascii.eqb c) (chars "*+?").

Definition newline : ascii := ascii_of_N 10.

Inductive atom : Type :=
  | Lit (c : ascii)
  | AnyChar.

Definition atom_matches (a : atom) (c : ascii) : bool :=
  match a with
  | Lit p => Ascii.eqb (lower p) (lower c)
  | AnyChar => negb (Ascii.eqb c newline)
  end.

(** The pattern matches at the start of the subject. *)
Fixpoint match_here (p : list atom) (s : list ascii) : bool :=
  match p, s with
  | [], _ => true
  | _ :: _, [] => false
  | a :: p', c :: s' => atom_matches a c && match_here p' s'
  end.

(** [search]: the pattern matches at some position of the subject. *)
Fixpoint search (p : list atom) (s : list ascii) : bool :=
  match_here p s ||
  match s with
  | [] => false
  | _ :: s' => search p s'
  end.

Fixpoint atoms_of (p : list ascii) : option (list atom) :=
  match p with
  | [] => Some []
  | c :: p' =>
      if is_ascii7 c then
        match (if Ascii.eqb c "." then Some AnyChar
               else if is_special c then None else Some (Lit c)),
              atoms_of p' with
        | Some a, Some l => Some (a :: l)
        | _, _ => None
        end
      else None
  end.

Inductive parsed : Type :=
  | Atoms (p : list atom)
  | NothingToRepeat
  | Beyond.

Definition parse (pat : string) : parsed :=
  match chars pat with
  | c :: _ =>
      if is_repeat c then NothingToRepeat
      else match atoms_of (chars pat) with
           | Some p => Atoms p
           | None => Beyond
           end
  | [] => Atoms []
  end.

(** ** Boolean masks and the sidebar filter *)

(** [df[mask]] *)
Fixpoint boolean_index {A : Type} (rows : list A) (mask : list bool) : list A :=
  match rows, mask with
  | r :: rows', b :: mask' =>
      if b then r :: boolean_index rows' mask' else boolean_index rows' mask'
  | _, _ => []
  end.

Definition isin (series : list string) (values : list string) : list bool :=
  map (fun v => bool_decide (v ∈ values)) series.

Definition mask_or (m1 m2 : list bool) : list bool :=
  map (fun p => orb (fst p) (snd p)) (combine m1 m2).

Definition filtered_df (df : list Question) (selected_categories : list string)
  : list Question :=
  match selected_categories with
  | [] => df
  | _ :: _ => boolean_index df (isin (map Category df) selected_categories)
  end.

(** ** The search box *)

Section Pandas.

(** [re.compile(pat, re.IGNORECASE)] for a pattern beyond the fragment:
    [None] is [re.error], [Some f] the search predicate of the compiled
    pattern. *)
Variable re_other : string -> option (string -> bool).

(** [search] of a pattern of the fragment in a subject that holds a
    character beyond 7 bits. *)
Variable search_wide : string -> string -> bool.

Definition re_compile (pat : string) : option (string -> bool) :=
  match parse pat with
  | Atoms p =>
      Some (fun s => if forallb is_ascii7 (chars s) then search p (chars s)
                     else search_wide pat s)
  | NothingToRepeat => None
  | Beyond => re_other pat
  end.

(** [series.str.contains(pat, case=False)]: the boolean mask, or [None]
    when compiling the pattern raises. *)
Definition str_contains (pat : string) (series : list string) : option (list bool) :=
  match re_compile pat with
  | Some f => Some (map f series)
  | None => None
  end.

(** [None] when [str.contains] raises [re.error]. *)
Definition display_df (filtered : list Question) (search_query : string)
  : option (list Question) :=
  if String.eqb search_query "" then Some filtered
  else
    match str_contains search_query (map Question_ filtered) with
    | None => None
    | Some mq =>
        match str_contains search_query (map Answer filtered) with
        | None => None
        | Some ma => Some (boolean_index filtered (mask_or mq ma))
        end
    end.

End Pandas.

(** ** Session state *)

Record SessionState : Type := mkState {
  bookmarks : gset Z;
  current_index : Z;
  reveal : bool;
  random_mode : bool
}.

Definition initial_state : SessionState := mkState ∅ 0 false false.

Definition set_bookmarks (b : gset Z) (st : SessionState) : SessionState :=
  mkState b (current_index st) (reveal st) (random_mode st).

Definition set_current_index (i : Z) (st : SessionState) : SessionState :=
  mkState (bookmarks st) i (reveal st) (random_mode st).

Definition set_reveal (r : bool) (st : SessionState) : SessionState :=
  mkState (bookmarks st) (current_index st) r (random_mode st).

(** [s.add(x)] and [s.remove(x)] of a Python set; [None] is [KeyError]. *)
Definition set_add (x : Z) (s : gset Z) : gset Z := {[x]} ∪ s.

Definition set_remove (x : Z) (s : gset Z) : option (gset Z) :=
  if bool_decide (x ∈ s) then Some (s ∖ {[x]}) else None.

(** ** Widgets, pages and outcomes of one execution *)

Inductive Mode : Type :=
  | BrowseSearch
  | Flashcards
  | MyBookmarks.

(** The values of the widgets that keep their value between executions.
    The search box belongs to the browse page only. *)
Record Widgets : Type := mkWidgets {
  mode : Mode;
  selected_categories : list string;
  search_query : string
}.

(** The button, if any, whose press triggered the execution.  Buttons
    created with a [key] carry the record id of the key.  [RandomQuestion]
    carries the entropy [random.randint] consumes in that execution. *)
Inductive Click : Type :=
  | NoClick
  | ClearBookmarks
  | BrowseStar (id : Z)
  | Previous
  | RandomQuestion (entropy : Z)
  | Next
  | FlashStar
  | RevealAnswer
  | Hard
  | Okay
  | Easy
  | RemoveBookmark (id : Z).

Inductive Exn : Type :=
  | ReError
  | KeyError (id : Z)
  | IndexError.

(** What the main area shows when the execution reaches the end. *)
Inductive Page : Type :=
  | BrowsePage (shown total : nat) (cards : list (Question * bool))
  | NoQuestionsWarning
  | FlashcardPage (current_q : Question) (is_bm : bool) (answer : option string)
  | NoBookmarksInfo
  | BookmarksPage (cards : list Question).

Inductive Outcome : Type :=
  | Finished (st : SessionState) (page : Page)
  | Rerun (st : SessionState)
  | Raised (st : SessionState) (e : Exn).

Definition state_of (o : Outcome) : SessionState :=
  match o with
  | Finished st _ => st
  | Rerun st => st
  | Raised st _ => st
  end.

(** [random.randint(a, b)]: some integer of [a..b], chosen by the entropy. *)
Definition randint (a b entropy : Z) : Z := a + entropy mod (b - a + 1).

(** [rows.iloc[i]]: negative positions count from the end; [None] is
    [IndexError]. *)
Definition iloc (rows : list Question) (i : Z) : option Question :=
  let n := Z.of_nat (length rows) in
  if (0 <=? i) && (i <? n) then rows !! Z.to_nat i
  else if (- n <=? i) && (i <? 0) then rows !! Z.to_nat (n + i)
  else None.

(** The body shared by the three bookmark toggles:
    [if is_bookmarked: bookmarks.remove(id) else: bookmarks.add(id)]
    followed by [st.rerun()]. *)
Definition toggle_bookmark (id : Z) (is_bookmarked : bool) (st : SessionState) : Outcome :=
  if is_bookmarked then
    match set_remove id (bookmarks st) with
    | Some b => Rerun (set_bookmarks b st)
    | None => Raised st (KeyError id)
    end
  else Rerun (set_bookmarks (set_add id (bookmarks st)) st).

Definition pressed_star (click : Click) (id : Z) : bool :=
  match click with
  | BrowseStar k => Z.eqb k id
  | _ => false
  end.

Definition pressed_remove (click : Click) (id : Z) : bool :=
  match click with
  | RemoveBookmark k => Z.eqb k id
  | _ => false
  end.

(** ** Page: browse and search

    The loop over [display_df.iterrows()]: [inl cards] when it runs to the
    end, [inr o] when a star button leaves it.

    Every star button is created with the key [browse_bm_{ID}], and
    Streamlit raises [StreamlitDuplicateElementKey] when a key is used a
    second time within one execution.  That check is not part of the loop
    below: the loop is the behaviour on a listing whose ids are pairwise
    distinct, and the statements about the page it renders carry
    [NoDup (map ID df)] as a hypothesis. *)
Fixpoint browse_loop (rows : list Question) (click : Click) (st : SessionState)
  : list (Question * bool) + Outcome :=
  match rows with
  | [] => inl []
  | row :: rest =>
      let is_bookmarked := bool_decide (ID row ∈ bookmarks st) in
      if pressed_star click (ID row) then inr (toggle_bookmark (ID row) is_bookmarked st)
      else match browse_loop rest click st with
           | inl cards => inl ((row, is_bookmarked) :: cards)
           | inr o => inr o
           end
  end.

(** ** Page: flashcards *)

(** [if current_index >= len(filtered_df): current_index = 0] *)
Definition clamp (filtered : list Question) (st : SessionState) : SessionState :=
  if Z.of_nat (length filtered) <=? current_index st then set_current_index 0 st else st.

(** The page from [current_q = filtered_df.iloc[current_index]] on. *)
Definition flashcard (filtered : list Question) (click : Click) (st : SessionState)
  : Outcome :=
  let n := Z.of_nat (length filtered) in
  match iloc filtered (current_index st) with
  | None => Raised st IndexError
  | Some current_q =>
      let q_id := ID current_q in
      match click with
      | Previous =>
          Rerun (set_reveal false (set_current_index ((current_index st - 1) mod n) st))
      | RandomQuestion e =>
          Rerun (set_reveal false (set_current_index (randint 0 (n - 1) e) st))
      | Next =>
          Rerun (set_reveal false (set_current_index ((current_index st + 1) mod n) st))
      | _ =>
          let is_bm := bool_decide (q_id ∈ bookmarks st) in
          match click with
          | FlashStar => toggle_bookmark q_id is_bm st
          | _ =>
              let st := match click with
                        | RevealAnswer => set_reveal (negb (reveal st)) st
                        | _ => st
                        end in
              Finished st
                (FlashcardPage current_q is_bm
                   (if reveal st then Some (Answer current_q) else None))
          end
      end
  end.

Definition flashcards (filtered : list Question) (click : Click) (st : SessionState)
  : Outcome :=
  match filtered with
  | [] => Finished st NoQuestionsWarning
  | _ :: _ => flashcard filtered click (clamp filtered st)
  end.

(** ** Page: bookmarks *)
Definition bookmark_df (df : list Question) (b : gset Z) : list Question :=
  boolean_index df (map (fun id => bool_decide (id ∈ b)) (map ID df)).

(** The loop over [bookmark_df.iterrows()].  The "Remove Bookmark" buttons
    carry the key [rm_{ID}]; as in [browse_loop], the check for a repeated
    key is left out, and the statements about the rendered page assume
    pairwise distinct ids. *)
Fixpoint bookmarks_loop (rows : list Question) (click : Click) (st : SessionState)
  : list Question + Outcome :=
  match rows with
  | [] => inl []
  | row :: rest =>
      if pressed_remove click (ID row) then
        inr (match set_remove (ID row) (bookmarks st) with
             | Some b => Rerun (set_bookmarks b st)
             | None => Raised st (KeyError (ID row))
             end)
      else match bookmarks_loop rest click st with
           | inl cards => inl (row :: cards)
           | inr o => inr o
           end
  end.

Definition my_bookmarks (df : list Question) (click : Click) (st : SessionState)
  : Outcome :=
  if bool_decide (bookmarks st = ∅) then Finished st NoBookmarksInfo
  else match bookmarks_loop (bookmark_df df (bookmarks st)) click st with
       | inl cards => Finished st (BookmarksPage cards)
       | inr o => o
       end.

Section Script.

Variable re_other : string -> option (string -> bool).
Variable search_wide : string -> string -> bool.

Definition browse_search (df filtered : list Question) (w : Widgets) (click : Click)
    (st : SessionState) : Outcome :=
  match display_df re_other search_wide filtered (search_query w) with
  | None => Raised st ReError
  | Some display =>
      match browse_loop display click st with
      | inl cards => Finished st (BrowsePage (length filtered) (length df) cards)
      | inr o => o
      end
  end.

(** The main area: the page of the selected mode, over the table filtered
    by the sidebar. *)
Definition main_area (df : list Question) (w : Widgets) (click : Click)
    (st : SessionState) : Outcome :=
  let filtered := filtered_df df (selected_categories w) in
  match mode w with
  | BrowseSearch => browse_search df filtered w click st
  | Flashcards => flashcards filtered click st
  | MyBookmarks => my_bookmarks df click st
  end.

(** One execution of the file on the loaded table [df]: the sidebar with its
    "Clear Bookmarks" button, then the main area. *)
Definition script (df : list Question) (w : Widgets) (click : Click) (st : SessionState)
  : Outcome :=
  match click with
  | ClearBookmarks => Rerun (set_bookmarks ∅ st)
  | _ => main_area df w click st
  end.

(** A user action: the execution it triggers and, when that one calls
    [st.rerun()], the execution that follows with no button pressed. *)
Definition run (df : list Question) (w : Widgets) (click : Click) (st : SessionState)
  : Outcome :=
  match script df w click st with
  | Rerun st' => script df w NoClick st'
  | o => o
  end.

(** The session state a user action leaves behind. *)
Definition step (df : list Question) (w : Widgets) (click : Click) (st : SessionState)
  : SessionState :=
  state_of (run df w click st).

End Script.

(** The session states a user can bring about from the initial one, on a
    table that stays the same (the loader is cached). *)
Inductive reachable (re_other : string -> option (string -> bool))
    (search_wide : string -> string -> bool) (df : list Question)
  : SessionState -> Prop :=
  | reachable_initial : reachable re_other search_wide df initial_state
  | reachable_step (w : Widgets) (click : Click) (st : SessionState) :
      reachable re_other search_wide df st ->
      reachable re_other search_wide df (step re_other search_wide df w click st).

(** Trivial stand-ins for the two parameters, for closed examples whose
    inputs stay inside the fragment. *)
Definition no_other : string -> option (string -> bool) := fun _ => None.
Definition no_wide : string -> string -> bool := fun _ _ => false.

(** ** The filter as the specification words it

    The category predicate, the text predicate (a case-insensitive
    substring test) and the stable filter built from them.  These follow
    the specification, not the code, and are what [filtered_df] and
    [display_df] are compared with. *)

Fixpoint is_prefix (p s : list ascii) : bool :=
  match p, s with
  | [], _ => true
  | _ :: _, [] => false
  | a :: p', c :: s' => Ascii.eqb a c && is_prefix p' s'
  end.

Fixpoint is_substring (p s : list ascii) : bool :=
  is_prefix p s ||
  match s with
  | [] => false
  | _ :: s' => is_substring p s'
  end.

Definition spec_category_pred (C : list string) (r : Question) : bool :=
  match C with
  | [] => true
  | _ :: _ => bool_decide (Category r ∈ C)
  end.

Definition spec_text_pred (Q : string) (r : Question) : bool :=
  String.eqb Q "" ||
  is_substring (lower_str Q) (lower_str (Question_ r)) ||
  is_substring (lower_str Q) (lower_str (Answer r)).

Definition spec_filter (T : list Question) (C : list string) (Q : string) : list Question :=
  List.filter (fun r => spec_category_pred C r && spec_text_pred Q r) T.

(** A query without characters that [re] reads as operators. *)
Definition plain (s : string) : bool :=
  forallb (fun c => is_ascii7 c && negb (is_special c)) (chars s).

Definition ascii_text (s : string) : bool := forallb is_ascii7 (chars s).

Definition ascii_table (T : list Question) : bool :=
  forallb (fun r => ascii_text (Question_ r) && ascii_text (Answer r)) T.

(** The three navigation buttons of the flashcard page. *)
Definition is_navigation (click : Click) : bool :=
  match click with
  | Previous | RandomQuestion _ | Next => true
  | _ => false
  end.

(** The cursor addresses a card of the view. *)
Definition in_range (view : list Question) (st : SessionState) : Prop :=
  0 <= current_index st < Z.of_nat (length view).

(** The state a navigation button writes before it calls [st.rerun()]. *)
Definition navigate (view : list Question) (click : Click) (st : SessionState)
  : SessionState :=
  let n := Z.of_nat (length view) in
  match click with
  | Previous => set_reveal false (set_current_index ((current_index st - 1) mod n) st)
  | RandomQuestion e => set_reveal false (set_current_index (randint 0 (n - 1) e) st)
  | Next => set_reveal false (set_current_index ((current_index st + 1) mod n) st)
  | _ => st
  end.

(** A CSV file as [pd.read_csv] returns it, without the [Answer] column. *)
Definition csv_without_answers : DataFrame :=
  [ ("ID", [IntCell 1]);
    ("Category", [StrCell "Basics"]);
    ("Question", [StrCell "What is React?"]) ].

(** ** The sidebar *)

(** [Series.unique()]: the distinct values in order of first appearance. *)
Fixpoint unique_from (seen l : list string) : list string :=
  match l with
  | [] => []
  | x :: l' =>
      if bool_decide (x ∈ seen) then unique_from seen l'
      else x :: unique_from (x :: seen) l'
  end.

Definition unique (l : list string) : list string := unique_from [] l.

(** [sorted(...)] on strings, which Python orders by code point. *)
Fixpoint insert_sorted (x : string) (l : list string) : list string :=
  match l with
  | [] => [x]
  | y :: l' => if String.leb x y then x :: y :: l' else y :: insert_sorted x l'
  end.

Definition sorted (l : list string) : list string := fold_right insert_sorted [] l.

(** The options of the category multiselect,
    [sorted(df['Category'].astype(str).unique().tolist())], on a table whose
    categories are strings, where [astype(str)] changes nothing. *)
Definition all_categories (df : list Question) : list string :=
  sorted (unique (map Category df)).

(** [astype(str)] on a cell: an integer becomes its decimal numeral, a
    string stays as it is. *)
Definition astype_str (c : cell) : string :=
  match c with
  | IntCell z => NilZero.string_of_int (Z.to_int z)
  | StrCell s => s
  end.

(** The same options computed from the frame, whatever its [Category]
    column holds; [None] is the [KeyError] of [df['Category']].  The filter
    of the main area tests the raw column, not these strings. *)
Definition category_options (df : DataFrame) : option (list string) :=
  match column "Category" df with
  | Some vs => Some (sorted (unique (map astype_str vs)))
  | None => None
  end.

(** A CSV file whose [Category] column reads as numbers. *)
Definition csv_with_numeric_categories : DataFrame :=
  [ ("ID", [IntCell 1]);
    ("Category", [IntCell 10]);
    ("Question", [StrCell "What is React?"]);
    ("Answer", [StrCell "A JS library for building UIs."]) ].

(** The two metrics of the sidebar. *)
Definition total_q (df : list Question) : nat := length df.

Definition bookmarked_q (st : SessionState) : nat := size (bookmarks st).

(** What a bookmark toggle makes of the set. *)
Definition toggled (id : Z) (b : gset Z) : gset Z :=
  if bool_decide (id ∈ b) then b ∖ {[id]} else set_add id b.

(** ** The file as a whole

    [df = load_data()] followed by the sidebar and the pages.  The sidebar
    indexes [df['Category']] first, which raises [KeyError] on a frame
    without that column. *)
Inductive AppOutcome : Type :=
  | ColumnKeyError (shown : list string) (label : string)
  | Ran (shown : list string) (o : Outcome)
  | OtherDtypes.

Definition app (re_other : string -> option (string -> bool))
    (search_wide : string -> string -> bool)
    (src : Source) (w : Widgets) (click : Click) (st : SessionState) : AppOutcome :=
  let loaded := load_data src in
  match column "Category" (frame loaded) with
  | None => ColumnKeyError (errors loaded) "Category"
  | Some _ =>
      match records (frame loaded) with
      | Some df => Ran (errors loaded) (run re_other search_wide df w click st)
      | None => OtherDtypes
      end
  end.

(** * Properties *)

(** ** Boolean indexing *)

Lemma boolean_index_map {A : Type} (f : A -> bool) (rows : list A) :
  boolean_index rows (map f rows) = List.filter f rows.
Proof.
  induction rows as [|r rows IH]; simpl; [reflexivity|].
  rewrite IH. reflexivity.
Qed.

Lemma mask_or_map {A : Type} (f g : A -> bool) (rows : list A) :
  mask_or (map f rows) (map g rows) = map (fun r => f r || g r) rows.
Proof.
  unfold mask_or. induction rows as [|r rows IH]; simpl; [reflexivity|].
  f_equal. exact IH.
Qed.

Lemma isin_map (rows : list Question) (values : list string) :
  isin (map Category rows) values
  = map (fun r => bool_decide (Category r ∈ values)) rows.
Proof. unfold isin. rewrite map_map. reflexivity. Qed.

Lemma filtered_df_filter (df : list Question) (C : list string) :
  filtered_df df C = List.filter (spec_category_pred C) df.
Proof.
  destruct C as [|c C]; simpl.
  - induction df as [|r df IH]; simpl; congruence.
  - rewrite isin_map, boolean_index_map. reflexivity.
Qed.

Lemma bookmark_df_filter (df : list Question) (b : gset Z) :
  bookmark_df df b = List.filter (fun r => bool_decide (ID r ∈ b)) df.
Proof.
  unfold bookmark_df. rewrite map_map, boolean_index_map. reflexivity.
Qed.

Lemma list_filter_sublist {A : Type} (f : A -> bool) (l : list A) :
  sublist (List.filter f l) l.
Proof.
  induction l as [|x l IH]; simpl.
  - constructor.
  - destruct (f x); constructor; exact IH.
Qed.

Lemma list_filter_elem_of {A : Type} (f : A -> bool) (l : list A) (x : A) :
  x ∈ List.filter f l <-> x ∈ l /\ f x = true.
Proof.
  rewrite !list_elem_of_In. apply filter_In.
Qed.

(** ** The regular-expression fragment on plain queries *)

Lemma repeat_is_special (c : ascii) : is_repeat c = true -> is_special c = true.
Proof.
  unfold is_repeat, is_special, special_chars. simpl.
  destruct (Ascii.eqb_spec c "*") as [->|_]; [reflexivity|].
  destruct (Ascii.eqb_spec c "+") as [->|_]; [reflexivity|].
  destruct (Ascii.eqb_spec c "?") as [->|_]; [reflexivity|].
  discriminate.
Qed.

Lemma dot_is_special (c : ascii) : Ascii.eqb c "." = true -> is_special c = true.
Proof. intros H. apply Ascii.eqb_eq in H. subst c. reflexivity. Qed.

Lemma atoms_of_plain (p : list ascii) :
  forallb (fun c => is_ascii7 c && negb (is_special c)) p = true ->
  atoms_of p = Some (map Lit p).
Proof.
  induction p as [|c p IH]; simpl; [reflexivity|].
  intros H. apply andb_true_iff in H as [Hc Hp].
  apply andb_true_iff in Hc as [H7 Hs]. apply negb_true_iff in Hs.
  rewrite H7, (IH Hp), Hs.
  destruct (Ascii.eqb c ".") eqn:Hdot; [|reflexivity].
  apply dot_is_special in Hdot. congruence.
Qed.

Lemma parse_plain (q : string) :
  plain q = true -> parse q = Atoms (map Lit (chars q)).
Proof.
  unfold plain, parse. intros H. rewrite (atoms_of_plain _ H).
  destruct (chars q) as [|c p] eqn:E; [reflexivity|].
  simpl in H. apply andb_true_iff in H as [Hc _].
  apply andb_true_iff in Hc as [_ Hs]. apply negb_true_iff in Hs.
  destruct (is_repeat c) eqn:Hr; [|reflexivity].
  apply repeat_is_special in Hr. congruence.
Qed.

Lemma match_here_literal (p s : list ascii) :
  match_here (map Lit p) s = is_prefix (map lower p) (map lower s).
Proof.
  revert s. induction p as [|a p IH]; intros [|c s]; simpl; try reflexivity.
  rewrite IH. reflexivity.
Qed.

Lemma search_literal (p s : list ascii) :
  search (map Lit p) s = is_substring (map lower p) (map lower s).
Proof.
  induction s as [|c s IH].
  - simpl. rewrite (match_here_literal p []). reflexivity.
  - cbn [search is_substring map]. fold (map lower s).
    rewrite IH, (match_here_literal p (c :: s)). reflexivity.
Qed.

Lemma list_filter_filter {A : Type} (f g : A -> bool) (l : list A) :
  List.filter g (List.filter f l) = List.filter (fun x => f x && g x) l.
Proof.
  induction l as [|x l IH]; simpl; [reflexivity|].
  destruct (f x); simpl; [destruct (g x)|]; congruence.
Qed.

Lemma list_filter_true {A : Type} (l : list A) : List.filter (fun _ => true) l = l.
Proof. induction l as [|x l IH]; simpl; congruence. Qed.

Section PlainQueries.

Variable re_other : string -> option (string -> bool).
Variable search_wide : string -> string -> bool.

Lemma re_compile_plain (q s : string) :
  plain q = true -> ascii_text s = true ->
  exists f, re_compile re_other search_wide q = Some f
            /\ f s = is_substring (lower_str q) (lower_str s).
Proof.
  intros Hq Hs. unfold re_compile. rewrite (parse_plain q Hq).
  eexists. split; [reflexivity|]. cbn beta.
  unfold ascii_text in Hs. rewrite Hs. apply search_literal.
Qed.

(** On a plain query over 7-bit text the search box does select by
    case-insensitive substring. *)
Lemma display_df_plain (filtered : list Question) (Q : string) :
  plain Q = true -> ascii_table filtered = true ->
  display_df re_other search_wide filtered Q
  = Some (List.filter (spec_text_pred Q) filtered).
Proof.
  intros Hq Ht. unfold display_df.
  destruct (String.eqb Q "") eqn:HQ.
  - f_equal. symmetry. unfold spec_text_pred. rewrite HQ. simpl.
    apply list_filter_true.
  - unfold str_contains, re_compile. rewrite (parse_plain Q Hq).
    rewrite !map_map, mask_or_map, boolean_index_map. f_equal.
    apply List.filter_ext_in. intros r Hr.
    unfold ascii_table in Ht. rewrite forallb_forall in Ht.
    specialize (Ht r Hr). apply andb_true_iff in Ht as [H1 H2].
    unfold ascii_text in H1, H2. rewrite H1, H2.
    unfold spec_text_pred. rewrite HQ, !search_literal. reflexivity.
Qed.

Lemma ascii_table_filtered (T : list Question) (C : list string) :
  ascii_table T = true -> ascii_table (filtered_df T C) = true.
Proof.
  unfold ascii_table. rewrite filtered_df_filter, !forallb_forall.
  intros H r Hr. apply filter_In in Hr as [Hr _]. exact (H r Hr).
Qed.

(** The filter of the browse page agrees with the specified one on plain
    queries over 7-bit text. *)
Lemma filter_plain_correct (T : list Question) (C : list string) (Q : string) :
  plain Q = true -> ascii_table T = true ->
  display_df re_other search_wide (filtered_df T C) Q = Some (spec_filter T C Q).
Proof.
  intros Hq Ht.
  rewrite (display_df_plain _ _ Hq (ascii_table_filtered T C Ht)).
  rewrite filtered_df_filter, list_filter_filter. reflexivity.
Qed.

End PlainQueries.

(** ** The cursor and the flashcard page *)

Lemma view_length_pos (view : list Question) :
  view <> [] -> 0 < Z.of_nat (length view).
Proof. destruct view; [congruence|]. simpl. lia. Qed.

Lemma in_range_nonempty (view : list Question) (st : SessionState) :
  in_range view st -> view <> [].
Proof. unfold in_range. destruct view; simpl; [lia|congruence]. Qed.

Lemma iloc_in_range (view : list Question) (i : Z) :
  0 <= i < Z.of_nat (length view) -> exists q, iloc view i = Some q.
Proof.
  intros H. unfold iloc.
  replace (0 <=? i) with true by (symmetry; apply Z.leb_le; lia).
  replace (i <? Z.of_nat (length view)) with true by (symmetry; apply Z.ltb_lt; lia).
  simpl. destruct (view !! Z.to_nat i) as [q|] eqn:E; [eauto|].
  apply lookup_ge_None in E. lia.
Qed.

Lemma clamp_in_range (view : list Question) (st : SessionState) :
  view <> [] -> 0 <= current_index st -> in_range view (clamp view st).
Proof.
  intros Hne H0. pose proof (view_length_pos view Hne) as Hn.
  unfold clamp, in_range.
  destruct (Z.leb_spec (Z.of_nat (length view)) (current_index st)); simpl; lia.
Qed.

Lemma clamp_id (view : list Question) (st : SessionState) :
  in_range view st -> clamp view st = st.
Proof.
  unfold clamp, in_range. intros H.
  destruct (Z.leb_spec (Z.of_nat (length view)) (current_index st)); [lia|reflexivity].
Qed.

Lemma clamp_reset (view : list Question) (st : SessionState) :
  Z.of_nat (length view) <= current_index st -> clamp view st = set_current_index 0 st.
Proof.
  unfold clamp. intros H.
  destruct (Z.leb_spec (Z.of_nat (length view)) (current_index st)); [reflexivity|lia].
Qed.

Lemma clamp_reveal (view : list Question) (st : SessionState) :
  reveal (clamp view st) = reveal st.
Proof. unfold clamp. destruct (_ <=? _); reflexivity. Qed.

Lemma clamp_bookmarks (view : list Question) (st : SessionState) :
  bookmarks (clamp view st) = bookmarks st.
Proof. unfold clamp. destruct (_ <=? _); reflexivity. Qed.

Lemma flashcards_nonempty (view : list Question) (click : Click) (st : SessionState) :
  view <> [] -> flashcards view click st = flashcard view click (clamp view st).
Proof. destruct view; [congruence|reflexivity]. Qed.

(** With no button pressed and the cursor in range the page shows the card
    under the cursor and leaves the state alone. *)
Lemma flashcard_idle (view : list Question) (st : SessionState) :
  in_range view st ->
  exists q, iloc view (current_index st) = Some q
    /\ flashcard view NoClick st
       = Finished st (FlashcardPage q (bool_decide (ID q ∈ bookmarks st))
                        (if reveal st then Some (Answer q) else None)).
Proof.
  intros Hr. destruct (iloc_in_range view _ Hr) as [q Hq].
  exists q. split; [exact Hq|].
  unfold flashcard. rewrite Hq. reflexivity.
Qed.

Lemma set_bookmarks_same (st : SessionState) : set_bookmarks (bookmarks st) st = st.
Proof. destruct st; reflexivity. Qed.

Lemma set_bookmarks_twice (b b' : gset Z) (st : SessionState) :
  set_bookmarks b' (set_bookmarks b st) = set_bookmarks b' st.
Proof. reflexivity. Qed.

Lemma clamp_set_bookmarks (view : list Question) (b : gset Z) (st : SessionState) :
  clamp view (set_bookmarks b st) = set_bookmarks b (clamp view st).
Proof. unfold clamp. simpl. destruct (_ <=? _); reflexivity. Qed.

Lemma randint_range (n e : Z) : 0 < n -> 0 <= randint 0 (n - 1) e < n.
Proof.
  intros Hn. unfold randint. replace (n - 1 - 0 + 1) with n by lia.
  pose proof (Z.mod_pos_bound e n Hn). lia.
Qed.

Lemma navigate_in_range (view : list Question) (click : Click) (st : SessionState) :
  view <> [] -> is_navigation click = true -> in_range view (navigate view click st).
Proof.
  intros Hne Hnav. pose proof (view_length_pos view Hne) as Hn.
  unfold in_range.
  destruct click; try discriminate; simpl.
  - apply Z.mod_pos_bound; lia.
  - apply randint_range; lia.
  - apply Z.mod_pos_bound; lia.
Qed.

Lemma navigate_reveal (view : list Question) (click : Click) (st : SessionState) :
  is_navigation click = true -> reveal (navigate view click st) = false.
Proof. destruct click; try discriminate; reflexivity. Qed.

Lemma flashcard_navigation (view : list Question) (click : Click) (st : SessionState) :
  in_range view st -> is_navigation click = true ->
  flashcard view click st = Rerun (navigate view click st).
Proof.
  intros Hr Hnav. destruct (iloc_in_range view _ Hr) as [q Hq].
  unfold flashcard. rewrite Hq.
  destruct click; try discriminate; reflexivity.
Qed.

(** ** Bookmark toggles never remove an absent id *)

Lemma toggle_bookmark_reruns (id : Z) (st : SessionState) :
  exists b, toggle_bookmark id (bool_decide (id ∈ bookmarks st)) st
            = Rerun (set_bookmarks b st).
Proof.
  unfold toggle_bookmark, set_remove.
  destruct (bool_decide (id ∈ bookmarks st)); eauto.
Qed.

Lemma browse_loop_outcome (rows : list Question) (click : Click) (st : SessionState) :
  browse_loop rows click st
  = inl (map (fun r => (r, bool_decide (ID r ∈ bookmarks st))) rows)
  \/ exists b, browse_loop rows click st = inr (Rerun (set_bookmarks b st)).
Proof.
  induction rows as [|row rows IH]; simpl; [left; reflexivity|].
  destruct (pressed_star click (ID row)).
  - right. destruct (toggle_bookmark_reruns (ID row) st) as [b ->]. eauto.
  - destruct IH as [-> | [b ->]]; [left; reflexivity | right; eauto].
Qed.

Lemma bookmark_df_members (df : list Question) (b : gset Z) :
  Forall (fun r => ID r ∈ b) (bookmark_df df b).
Proof.
  rewrite bookmark_df_filter. apply Forall_forall. intros r Hr.
  apply list_filter_elem_of in Hr as [_ Hr]. apply bool_decide_eq_true in Hr. exact Hr.
Qed.

Lemma bookmarks_loop_outcome (rows : list Question) (click : Click) (st : SessionState) :
  Forall (fun r => ID r ∈ bookmarks st) rows ->
  bookmarks_loop rows click st = inl rows
  \/ exists b, bookmarks_loop rows click st = inr (Rerun (set_bookmarks b st)).
Proof.
  induction 1 as [|row rows Hrow _ IH]; simpl; [left; reflexivity|].
  destruct (pressed_remove click (ID row)).
  - right. unfold set_remove. rewrite (bool_decide_eq_true_2 _ Hrow). eauto.
  - destruct IH as [-> | [b ->]]; [left; reflexivity | right; eauto].
Qed.

Lemma my_bookmarks_outcome (df : list Question) (click : Click) (st : SessionState) :
  (exists page, my_bookmarks df click st = Finished st page)
  \/ exists b, my_bookmarks df click st = Rerun (set_bookmarks b st).
Proof.
  unfold my_bookmarks. destruct (bool_decide (bookmarks st = ∅)); [left; eauto|].
  destruct (bookmarks_loop_outcome _ click st (bookmark_df_members df (bookmarks st)))
    as [-> | [b ->]]; [left | right]; eauto.
Qed.

(** What the flashcard page does on a card in range, button by button. *)
Lemma flashcard_outcome (view : list Question) (click : Click) (st : SessionState) :
  in_range view st ->
  (is_navigation click = true /\ flashcard view click st = Rerun (navigate view click st))
  \/ (click = FlashStar /\ exists b, flashcard view click st = Rerun (set_bookmarks b st))
  \/ (click = RevealAnswer
      /\ exists page, flashcard view click st = Finished (set_reveal (negb (reveal st)) st) page)
  \/ (is_navigation click = false /\ click <> FlashStar /\ click <> RevealAnswer
      /\ exists page, flashcard view click st = Finished st page).
Proof.
  intros Hr. destruct (iloc_in_range view _ Hr) as [q Hq].
  unfold flashcard. rewrite Hq.
  destruct click; simpl;
    try (left; split; reflexivity);
    try (right; right; right; repeat split; try discriminate; eauto; fail).
  - right; left. split; [reflexivity|]. apply toggle_bookmark_reruns.
  - right; right; left. split; [reflexivity|]. eauto.
Qed.

Lemma Click_eq_clear (click : Click) : click = ClearBookmarks \/ click <> ClearBookmarks.
Proof. destruct click; (left; reflexivity) || (right; discriminate). Qed.

Section ScriptFacts.

Variable re_other : string -> option (string -> bool).
Variable search_wide : string -> string -> bool.

Lemma browse_search_outcome (df filtered : list Question) (w : Widgets) (click : Click)
    (st : SessionState) :
  (exists page, browse_search re_other search_wide df filtered w click st = Finished st page)
  \/ browse_search re_other search_wide df filtered w click st = Raised st ReError
  \/ exists b, browse_search re_other search_wide df filtered w click st
               = Rerun (set_bookmarks b st).
Proof.
  unfold browse_search.
  destruct (display_df _ _ _ _) as [display|]; [|right; left; reflexivity].
  destruct (browse_loop_outcome display click st) as [-> | [b ->]];
    [left | right; right]; eauto.
Qed.

Lemma script_main_area (df : list Question) (w : Widgets) (click : Click)
    (st : SessionState) :
  click <> ClearBookmarks ->
  script re_other search_wide df w click st = main_area re_other search_wide df w click st.
Proof. destruct click; congruence || reflexivity. Qed.

(** Outside a non-empty flashcard page an execution changes nothing but,
    possibly, the bookmark set. *)
Lemma main_area_elsewhere (df : list Question) (w : Widgets) (click : Click)
    (st : SessionState) :
  mode w <> Flashcards \/ filtered_df df (selected_categories w) = [] ->
  (exists page, main_area re_other search_wide df w click st = Finished st page)
  \/ main_area re_other search_wide df w click st = Raised st ReError
  \/ exists b, main_area re_other search_wide df w click st = Rerun (set_bookmarks b st).
Proof.
  intros H. unfold main_area. destruct (mode w).
  - apply browse_search_outcome.
  - destruct H as [H | H]; [congruence|]. rewrite H. left. simpl. eauto.
  - destruct (my_bookmarks_outcome df click st) as [? | ?]; [left | right; right]; eauto.
Qed.

Lemma script_elsewhere (df : list Question) (w : Widgets) (click : Click)
    (st : SessionState) :
  mode w <> Flashcards \/ filtered_df df (selected_categories w) = [] ->
  (exists page, script re_other search_wide df w click st = Finished st page)
  \/ script re_other search_wide df w click st = Raised st ReError
  \/ exists b, script re_other search_wide df w click st = Rerun (set_bookmarks b st).
Proof.
  intros H. destruct click;
    try (rewrite script_main_area by discriminate; apply main_area_elsewhere, H).
  right; right. simpl. eauto.
Qed.

(** On a non-empty flashcard page with a cursor that is not negative. *)
Lemma script_flashcards (df : list Question) (w : Widgets) (click : Click)
    (st : SessionState) :
  mode w = Flashcards ->
  filtered_df df (selected_categories w) <> [] ->
  click <> ClearBookmarks ->
  script re_other search_wide df w click st
  = flashcard (filtered_df df (selected_categories w)) click
      (clamp (filtered_df df (selected_categories w)) st).
Proof.
  intros Hm Hne Hc. rewrite (script_main_area _ _ _ _ Hc).
  unfold main_area. rewrite Hm. apply flashcards_nonempty, Hne.
Qed.

Lemma browse_loop_idle (rows : list Question) (st : SessionState) :
  browse_loop rows NoClick st
  = inl (map (fun r => (r, bool_decide (ID r ∈ bookmarks st))) rows).
Proof. induction rows as [|row rows IH]; simpl; [|rewrite IH]; reflexivity. Qed.

Lemma bookmarks_loop_idle (rows : list Question) (st : SessionState) :
  bookmarks_loop rows NoClick st = inl rows.
Proof. induction rows as [|row rows IH]; simpl; [|rewrite IH]; reflexivity. Qed.

(** An execution with no button pressed never asks for another one, so
    [run] always ends in a page or in an exception. *)
Lemma script_idle_settles (df : list Question) (w : Widgets) (st st' : SessionState) :
  script re_other search_wide df w NoClick st <> Rerun st'.
Proof.
  simpl. unfold main_area. destruct (mode w).
  - unfold browse_search. destruct (display_df _ _ _ _); [|discriminate].
    rewrite browse_loop_idle. discriminate.
  - unfold flashcards. destruct (filtered_df _ _); [discriminate|].
    unfold flashcard. destruct (iloc _ _); discriminate.
  - unfold my_bookmarks. destruct (bool_decide _); [discriminate|].
    rewrite bookmarks_loop_idle. discriminate.
Qed.

Lemma run_settles (df : list Question) (w : Widgets) (click : Click)
    (st st' : SessionState) :
  run re_other search_wide df w click st <> Rerun st'.
Proof.
  unfold run. destruct (script re_other search_wide df w click st) eqn:E; try discriminate.
  apply script_idle_settles.
Qed.

Lemma script_idle_elsewhere (df : list Question) (w : Widgets) (st : SessionState) :
  mode w <> Flashcards \/ filtered_df df (selected_categories w) = [] ->
  state_of (script re_other search_wide df w NoClick st) = st.
Proof.
  intros H. destruct (script_elsewhere df w NoClick st H) as [[page E] | [E | [b E]]];
    rewrite E; try reflexivity.
  exfalso. exact (script_idle_settles _ _ _ _ E).
Qed.

(** Outside a non-empty flashcard page a user action changes nothing but,
    possibly, the bookmark set. *)
Lemma step_elsewhere (df : list Question) (w : Widgets) (click : Click)
    (st : SessionState) :
  mode w <> Flashcards \/ filtered_df df (selected_categories w) = [] ->
  exists b, step re_other search_wide df w click st = set_bookmarks b st.
Proof.
  intros H. unfold step, run.
  destruct (script_elsewhere df w click st H) as [[page E] | [E | [b E]]]; rewrite E.
  - exists (bookmarks st). simpl. symmetry. apply set_bookmarks_same.
  - exists (bookmarks st). simpl. symmetry. apply set_bookmarks_same.
  - exists b. apply script_idle_elsewhere, H.
Qed.

Lemma script_idle_flashcards (df : list Question) (w : Widgets) (st : SessionState) :
  mode w = Flashcards ->
  filtered_df df (selected_categories w) <> [] ->
  0 <= current_index st ->
  exists q,
    iloc (filtered_df df (selected_categories w))
      (current_index (clamp (filtered_df df (selected_categories w)) st)) = Some q
    /\ script re_other search_wide df w NoClick st
       = Finished (clamp (filtered_df df (selected_categories w)) st)
           (FlashcardPage q (bool_decide (ID q ∈ bookmarks st))
              (if reveal st then Some (Answer q) else None)).
Proof.
  intros Hm Hne H0. rewrite (script_flashcards df w NoClick st Hm Hne) by discriminate.
  destruct (flashcard_idle _ _ (clamp_in_range _ st Hne H0)) as (q & Hq & E).
  exists q. split; [exact Hq|].
  rewrite E, clamp_reveal, clamp_bookmarks. reflexivity.
Qed.

Lemma step_idle_in_range (df : list Question) (w : Widgets) (st : SessionState) :
  mode w = Flashcards ->
  in_range (filtered_df df (selected_categories w)) st ->
  state_of (script re_other search_wide df w NoClick st) = st.
Proof.
  intros Hm Hr. pose proof (in_range_nonempty _ _ Hr) as Hne.
  destruct (script_idle_flashcards df w st Hm Hne) as (q & _ & E); [apply Hr|].
  rewrite E. simpl. apply clamp_id, Hr.
Qed.

(** A user action on a non-empty flashcard page, button by button. *)
Lemma step_flashcards (df : list Question) (w : Widgets) (click : Click)
    (st : SessionState) :
  mode w = Flashcards ->
  filtered_df df (selected_categories w) <> [] ->
  0 <= current_index st ->
  (is_navigation click = true
   /\ step re_other search_wide df w click st
      = navigate (filtered_df df (selected_categories w)) click
          (clamp (filtered_df df (selected_categories w)) st))
  \/ (click = RevealAnswer
      /\ step re_other search_wide df w click st
         = set_reveal (negb (reveal st)) (clamp (filtered_df df (selected_categories w)) st))
  \/ (is_navigation click = false /\ click <> RevealAnswer
      /\ exists b, step re_other search_wide df w click st
                   = set_bookmarks b (clamp (filtered_df df (selected_categories w)) st)).
Proof.
  intros Hm Hne H0.
  set (view := filtered_df df (selected_categories w)) in *.
  pose proof (clamp_in_range view st Hne H0) as Hr.
  unfold step, run.
  destruct (Click_eq_clear click) as [-> | Hc].
  { right; right. repeat split; try discriminate. exists ∅.
    change (script re_other search_wide df w ClearBookmarks st) with (Rerun (set_bookmarks ∅ st)).
    cbv iota beta.
    destruct (script_idle_flashcards df w (set_bookmarks ∅ st) Hm Hne H0) as (q & _ & E).
    rewrite E. simpl. apply clamp_set_bookmarks. }
  rewrite (script_flashcards df w click st Hm Hne Hc). fold view.
  destruct (flashcard_outcome view click _ Hr)
    as [[Hnav E] | [[-> [b E]] | [[-> [page E]] | (Hnav & Hs & Hv & page & E)]]];
    rewrite E.
  - left. split; [exact Hnav|].
    apply (step_idle_in_range df w _ Hm), navigate_in_range; assumption.
  - right; right. repeat split; try discriminate. exists b.
    apply (step_idle_in_range df w _ Hm). exact Hr.
  - right; left. split; [reflexivity|]. simpl. rewrite clamp_reveal. reflexivity.
  - right; right. repeat split; try assumption. exists (bookmarks (clamp view st)).
    simpl. symmetry. apply set_bookmarks_same.
Qed.

Lemma step_navigation (df : list Question) (w : Widgets) (click : Click)
    (st : SessionState) :
  mode w = Flashcards ->
  filtered_df df (selected_categories w) <> [] ->
  0 <= current_index st ->
  is_navigation click = true ->
  step re_other search_wide df w click st
  = navigate (filtered_df df (selected_categories w)) click
      (clamp (filtered_df df (selected_categories w)) st).
Proof.
  intros Hm Hne H0 Hnav.
  destruct (step_flashcards df w click st Hm Hne H0)
    as [[_ E] | [[-> _] | (Hn & _)]]; [exact E | discriminate | congruence].
Qed.

(** Buttons other than the navigation buttons and "Reveal Answer" leave
    everything but the bookmark set alone; this holds for every cursor, also
    when reading the card raises. *)
Lemma flashcard_frame (view : list Question) (click : Click) (st : SessionState) :
  is_navigation click = false -> click <> RevealAnswer ->
  exists b, state_of (flashcard view click st) = set_bookmarks b st.
Proof.
  intros Hnav Hv. unfold flashcard.
  destruct (iloc view (current_index st)) as [q|].
  - destruct (toggle_bookmark_reruns (ID q) st) as [b Hb].
    destruct click; try discriminate; try congruence; simpl;
      try (exists (bookmarks st); symmetry; apply set_bookmarks_same).
    rewrite Hb. eauto.
  - exists (bookmarks st). symmetry. apply set_bookmarks_same.
Qed.

Lemma flashcard_no_key_error (view : list Question) (click : Click)
    (st st' : SessionState) (id : Z) :
  flashcard view click st <> Raised st' (KeyError id).
Proof.
  unfold flashcard. destruct (iloc view (current_index st)) as [q|]; [|discriminate].
  destruct (toggle_bookmark_reruns (ID q) st) as [b Hb].
  destruct click; try discriminate. rewrite Hb. discriminate.
Qed.

Lemma script_reveal_frame (df : list Question) (w : Widgets) (click : Click)
    (st : SessionState) :
  is_navigation click = false -> click <> RevealAnswer ->
  reveal (state_of (script re_other search_wide df w click st)) = reveal st.
Proof.
  intros Hnav Hv. destruct (Click_eq_clear click) as [-> | Hc]; [reflexivity|].
  rewrite (script_main_area _ _ _ _ Hc).
  destruct (mode w) eqn:Hm.
  - destruct (main_area_elsewhere df w click st) as [[page E] | [E | [b E]]];
      [left; congruence | rewrite E; reflexivity ..].
  - unfold main_area. rewrite Hm. unfold flashcards.
    destruct (filtered_df df (selected_categories w)) as [|r view] eqn:Hf; [reflexivity|].
    destruct (flashcard_frame (r :: view) click (clamp (r :: view) st) Hnav Hv)
      as [b ->].
    simpl. apply clamp_reveal.
  - destruct (main_area_elsewhere df w click st) as [[page E] | [E | [b E]]];
      [left; congruence | rewrite E; reflexivity ..].
Qed.

Lemma step_reveal_frame (df : list Question) (w : Widgets) (click : Click)
    (st : SessionState) :
  is_navigation click = false -> click <> RevealAnswer ->
  reveal (step re_other search_wide df w click st) = reveal st.
Proof.
  intros Hnav Hv. pose proof (script_reveal_frame df w click st Hnav Hv) as H1.
  unfold step, run.
  destruct (script re_other search_wide df w click st) as [st1 page | st1 | st1 e];
    simpl in H1; try exact H1.
  rewrite <- H1. apply script_reveal_frame; [reflexivity | discriminate].
Qed.

Lemma script_no_key_error (df : list Question) (w : Widgets) (click : Click)
    (st st' : SessionState) (id : Z) :
  script re_other search_wide df w click st <> Raised st' (KeyError id).
Proof.
  destruct (Click_eq_clear click) as [-> | Hc]; [discriminate|].
  rewrite (script_main_area _ _ _ _ Hc). unfold main_area. destruct (mode w).
  - destruct (browse_search_outcome df (filtered_df df (selected_categories w)) w click st)
      as [[page ->] | [-> | [b ->]]]; discriminate.
  - unfold flashcards. destruct (filtered_df df (selected_categories w)); [discriminate|].
    apply flashcard_no_key_error.
  - destruct (my_bookmarks_outcome df click st) as [[page ->] | [b ->]]; discriminate.
Qed.

Lemma run_no_key_error (df : list Question) (w : Widgets) (click : Click)
    (st st' : SessionState) (id : Z) :
  run re_other search_wide df w click st <> Raised st' (KeyError id).
Proof.
  unfold run.
  destruct (script re_other search_wide df w click st) as [st1 page | st1 | st1 e] eqn:E.
  - discriminate.
  - apply script_no_key_error.
  - rewrite <- E. apply script_no_key_error.
Qed.

(** The cursor never becomes negative. *)
Lemma step_index_nonneg (df : list Question) (w : Widgets) (click : Click)
    (st : SessionState) :
  0 <= current_index st -> 0 <= current_index (step re_other search_wide df w click st).
Proof.
  intros H0.
  destruct (mode w) eqn:Hm;
    try (destruct (step_elsewhere df w click st) as [b ->];
         [left; congruence | exact H0]).
  destruct (filtered_df df (selected_categories w)) as [|r view] eqn:Hf.
  - destruct (step_elsewhere df w click st) as [b ->]; [right; exact Hf | exact H0].
  - assert (Hne : filtered_df df (selected_categories w) <> []) by (rewrite Hf; discriminate).
    pose proof (clamp_in_range _ st Hne H0) as Hr.
    destruct (step_flashcards df w click st Hm Hne H0)
      as [[Hnav ->] | [[_ ->] | (_ & _ & b & ->)]].
    + apply (navigate_in_range _ click _ Hne Hnav).
    + apply Hr.
    + apply Hr.
Qed.

Lemma reachable_index_nonneg (df : list Question) (st : SessionState) :
  reachable re_other search_wide df st -> 0 <= current_index st.
Proof.
  induction 1 as [|w click st _ IH]; [simpl; lia|].
  apply step_index_nonneg, IH.
Qed.

End ScriptFacts.

(** * The claims *)

(** ** Loading *)

Lemma demo_records : records create_demo_data = Some demo_table.
Proof. reflexivity. Qed.

Lemma missing_column_detected (df : DataFrame) :
  (exists c, c ∈ required_cols /\ c ∉ columns df) ->
  forallb (fun col => bool_decide (col ∈ columns df)) required_cols = false.
Proof.
  intros (c & Hc & Hn).
  destruct (forallb _ required_cols) eqn:E; [|reflexivity].
  rewrite forallb_forall in E. apply list_elem_of_In in Hc.
  specialize (E c Hc). apply bool_decide_eq_true in E. contradiction.
Qed.

(** A file that has the four columns is returned as read. *)
Lemma load_data_complete (df : DataFrame) :
  (forall c, c ∈ required_cols -> c ∈ columns df) ->
  load_data (Existing (ReadFrame df)) = mkLoaded df [] None.
Proof.
  intros H. unfold load_data.
  replace (forallb _ required_cols) with true; [reflexivity|].
  symmetry. apply forallb_forall. intros c Hc. apply bool_decide_eq_true.
  apply H, list_elem_of_In, Hc.
Qed.

(** When reading the file raises, the frame returned has no columns at all:
    the sidebar's [df['Category']] then raises [KeyError]. *)
Lemma load_data_unreadable (e : string) :
  frame (load_data (Existing (ReadRaises e))) = []
  /\ column "Category" (frame (load_data (Existing (ReadRaises e)))) = None.
Proof. split; reflexivity. Qed.

(** C5, the claim as stated fails: a file without the [Answer] column does
    not make [load_data] return the placeholder dataset; the table returned
    has no rows. *)
Lemma C5_counterexample :
  ("Answer" ∈ required_cols)
  /\ ("Answer" ∉ columns csv_without_answers)
  /\ frame (load_data (Existing (ReadFrame csv_without_answers))) <> create_demo_data
  /\ records (frame (load_data (Existing (ReadFrame csv_without_answers)))) = Some [].
Proof.
  split; [|split; [|split]].
  - eapply bool_decide_eq_true_1. reflexivity.
  - eapply bool_decide_eq_false_1. reflexivity.
  - discriminate.
  - reflexivity.
Qed.

(** C5 (amended): when the source is missing, [load_data] returns the
    built-in five-record placeholder dataset without reporting an error;
    when the source is present but lacks a required column, it reports an
    error and returns an empty table that has the four required columns.
    In both cases a table with the four columns is returned. *)
Theorem C5_load_data_fallbacks :
  (frame (load_data Missing) = create_demo_data
   /\ errors (load_data Missing) = []
   /\ records (frame (load_data Missing)) = Some demo_table)
  /\ forall df : DataFrame,
      (exists c, c ∈ required_cols /\ c ∉ columns df) ->
      frame (load_data (Existing (ReadFrame df))) = empty_frame required_cols
      /\ errors (load_data (Existing (ReadFrame df)))
         = ["CSV is missing required columns: ID, Category, Question, Answer"]
      /\ columns (frame (load_data (Existing (ReadFrame df)))) = required_cols
      /\ records (frame (load_data (Existing (ReadFrame df)))) = Some [].
Proof.
  split; [repeat split|].
  intros df H. unfold load_data. rewrite (missing_column_detected df H).
  repeat split.
Qed.

Lemma C5_load_data_fallbacks_witness :
  (exists c, c ∈ required_cols /\ c ∉ columns csv_without_answers)
  /\ records (frame (load_data (Existing (ReadFrame csv_without_answers)))) = Some [].
Proof.
  assert (H : exists c, c ∈ required_cols /\ c ∉ columns csv_without_answers).
  { exists "Answer". split.
    - eapply bool_decide_eq_true_1. reflexivity.
    - eapply bool_decide_eq_false_1. reflexivity. }
  split; [exact H|].
  exact (proj2 (proj2 (proj2 (proj2 C5_load_data_fallbacks csv_without_answers H)))).
Defined.

(** ** Filtering *)

(** C7: on the five-record demo table, whose categories are Basics, Hooks,
    Components and System Design twice, the category filter
    {System Design} yields exactly two records, ids 501 and 502 in that
    order; the browse page with an empty search box lists just these. *)
Theorem C7_system_design_filter
    (re_other : string -> option (string -> bool))
    (search_wide : string -> string -> bool) :
  records create_demo_data = Some demo_table
  /\ map Category demo_table
     = ["Basics"; "Hooks"; "Components"; "System Design"; "System Design"]
  /\ length (filtered_df demo_table ["System Design"]) = 2%nat
  /\ map ID (filtered_df demo_table ["System Design"]) = [501; 502]
  /\ option_map (map ID)
       (display_df re_other search_wide (filtered_df demo_table ["System Design"]) "")
     = Some [501; 502].
Proof. repeat split. Qed.

(** C1, the code departs from the claim: the search box hands the query to
    [str.contains] as a regular expression.  On the demo table with no
    category selected, the query [R.act] selects record 1 although it is a
    substring of neither its question nor its answer, and the query [?]
    raises instead of selecting the three records that hold a question
    mark. *)
Theorem C1_search_query_is_a_pattern
    (re_other : string -> option (string -> bool))
    (search_wide : string -> string -> bool) :
  display_df re_other search_wide (filtered_df demo_table []) "R.act"
  = Some [mkQuestion 1 "Basics" "What is React?" "A JS library for building UIs."]
  /\ spec_filter demo_table [] "R.act" = []
  /\ display_df re_other search_wide (filtered_df demo_table []) "?" = None
  /\ map ID (spec_filter demo_table [] "?") = [1; 2; 3].
Proof. repeat split. Qed.

(** ** The cursor *)

(** C2, the claim as stated fails.  With the cursor at 4 and the category
    filter narrowed to the two System Design records while the browse page
    is open, the execution leaves the cursor at 4, out of range of the
    non-empty view.  On the flashcard page an empty view leaves the cursor
    as it is, too. *)
Lemma C2_counterexample :
  (Z.of_nat (length (filtered_df demo_table ["System Design"])) <= 4
   /\ filtered_df demo_table ["System Design"] <> []
   /\ current_index
        (step no_other no_wide demo_table
           (mkWidgets BrowseSearch ["System Design"] "") NoClick
           (mkState ∅ 4 false false)) = 4)
  /\ (Z.of_nat (length (filtered_df [] [])) <= 2
      /\ current_index
           (step no_other no_wide [] (mkWidgets Flashcards [] "") NoClick
              (mkState ∅ 2 false false)) = 2).
Proof.
  split; [split; [|split]|split].
  - vm_compute. discriminate.
  - discriminate.
  - reflexivity.
  - vm_compute. discriminate.
  - reflexivity.
Qed.

(** C2 (amended): on the flashcard page over a non-empty view of length m,
    a recomputation with the cursor at k >= m sets the cursor to 0, and
    after any user action there the cursor is in range, for every cursor
    that is not negative.  On the other pages, and over an empty view, a
    recomputation leaves the cursor as it is. *)
Theorem C2_clamp_on_flashcard_page
    (re_other : string -> option (string -> bool))
    (search_wide : string -> string -> bool)
    (df : list Question) (w : Widgets) (st : SessionState) :
  (mode w = Flashcards ->
   filtered_df df (selected_categories w) <> [] ->
   Z.of_nat (length (filtered_df df (selected_categories w))) <= current_index st ->
   current_index (step re_other search_wide df w NoClick st) = 0)
  /\ (mode w = Flashcards ->
      filtered_df df (selected_categories w) <> [] ->
      0 <= current_index st ->
      forall click,
        in_range (filtered_df df (selected_categories w))
          (step re_other search_wide df w click st))
  /\ (mode w <> Flashcards \/ filtered_df df (selected_categories w) = [] ->
      forall click,
        current_index (step re_other search_wide df w click st) = current_index st).
Proof.
  split; [|split].
  - intros Hm Hne Hk.
    pose proof (view_length_pos _ Hne) as Hn.
    destruct (step_flashcards re_other search_wide df w NoClick st Hm Hne)
      as [[Hnav _] | [[Hv _] | (_ & _ & b & ->)]]; try discriminate; [lia|].
    rewrite (clamp_reset _ _ Hk). reflexivity.
  - intros Hm Hne H0 click.
    pose proof (clamp_in_range _ st Hne H0) as Hr.
    destruct (step_flashcards re_other search_wide df w click st Hm Hne H0)
      as [[Hnav ->] | [[_ ->] | (_ & _ & b & ->)]].
    + apply (navigate_in_range _ click _ Hne Hnav).
    + exact Hr.
    + exact Hr.
  - intros H click.
    destruct (step_elsewhere re_other search_wide df w click st H) as [b ->].
    reflexivity.
Qed.

Lemma C2_clamp_on_flashcard_page_witness :
  Z.of_nat (length (filtered_df demo_table ["System Design"])) <= 4
  /\ current_index
       (step no_other no_wide demo_table (mkWidgets Flashcards ["System Design"] "")
          NoClick (mkState ∅ 4 false false)) = 0.
Proof.
  assert (H : Z.of_nat (length (filtered_df demo_table ["System Design"])) <= 4).
  { vm_compute. discriminate. }
  split; [exact H|].
  apply (proj1 (C2_clamp_on_flashcard_page no_other no_wide demo_table
                  (mkWidgets Flashcards ["System Design"] "")
                  (mkState ∅ 4 false false))).
  - reflexivity.
  - discriminate.
  - exact H.
Defined.

(** C3: on the flashcard page, whatever the Reveal Flag was before, each of
    Previous, Random Question and Next leaves it false. *)
Theorem C3_navigation_hides_answer
    (re_other : string -> option (string -> bool))
    (search_wide : string -> string -> bool)
    (df : list Question) (w : Widgets) (st : SessionState) :
  mode w = Flashcards ->
  filtered_df df (selected_categories w) <> [] ->
  0 <= current_index st ->
  reveal (step re_other search_wide df w Previous st) = false
  /\ (forall e, reveal (step re_other search_wide df w (RandomQuestion e) st) = false)
  /\ reveal (step re_other search_wide df w Next st) = false.
Proof.
  intros Hm Hne H0.
  assert (Hnav : forall click, is_navigation click = true ->
                 reveal (step re_other search_wide df w click st) = false).
  { intros click Hnav.
    rewrite (step_navigation re_other search_wide df w click st Hm Hne H0 Hnav).
    apply navigate_reveal, Hnav. }
  repeat split; intros; apply Hnav; reflexivity.
Qed.

Lemma C3_navigation_hides_answer_witness :
  reveal (step no_other no_wide demo_table (mkWidgets Flashcards [] "") Next
            (mkState ∅ 1 true false)) = false.
Proof.
  apply (C3_navigation_hides_answer no_other no_wide demo_table
           (mkWidgets Flashcards [] "") (mkState ∅ 1 true false)).
  - reflexivity.
  - discriminate.
  - simpl. lia.
Defined.

Section Wraparound.

Variable re_other : string -> option (string -> bool).
Variable search_wide : string -> string -> bool.
Variable df : list Question.
Variable w : Widgets.
Hypothesis flashcard_mode : mode w = Flashcards.

Local Abbreviation view := (filtered_df df (selected_categories w)).
Local Abbreviation n := (Z.of_nat (length view)).
Local Abbreviation press := (step re_other search_wide df w).

Lemma press_navigation_in_range (click : Click) (st : SessionState) :
  in_range view st -> is_navigation click = true ->
  press click st = navigate view click st /\ in_range view (press click st).
Proof.
  intros Hr Hnav. pose proof (in_range_nonempty _ _ Hr) as Hne.
  rewrite (step_navigation re_other search_wide df w click st flashcard_mode Hne)
    by (apply Hr || exact Hnav).
  rewrite (clamp_id _ _ Hr). split; [reflexivity|].
  apply navigate_in_range; assumption.
Qed.

Lemma iter_next (k : nat) (st : SessionState) :
  in_range view st ->
  in_range view (Nat.iter k (press Next) st)
  /\ current_index (Nat.iter k (press Next) st)
     = (current_index st + Z.of_nat k) mod n.
Proof.
  intros Hr. induction k as [|k [IHr IHc]].
  - simpl. split; [exact Hr|]. rewrite Z.add_0_r. symmetry.
    apply Z.mod_small, Hr.
  - rewrite Nat.iter_succ.
    destruct (press_navigation_in_range Next _ IHr eq_refl) as [-> Hr'].
    split; [exact Hr'|]. cbn [navigate set_reveal set_current_index current_index].
    rewrite IHc, Z.add_mod_idemp_l by (unfold in_range in Hr; lia).
    f_equal. lia.
Qed.

Lemma iter_previous (k : nat) (st : SessionState) :
  in_range view st ->
  in_range view (Nat.iter k (press Previous) st)
  /\ current_index (Nat.iter k (press Previous) st)
     = (current_index st - Z.of_nat k) mod n.
Proof.
  intros Hr. induction k as [|k [IHr IHc]].
  - simpl. split; [exact Hr|]. rewrite Z.sub_0_r. symmetry.
    apply Z.mod_small, Hr.
  - rewrite Nat.iter_succ.
    destruct (press_navigation_in_range Previous _ IHr eq_refl) as [-> Hr'].
    split; [exact Hr'|]. cbn [navigate set_reveal set_current_index current_index].
    rewrite IHc, Zminus_mod_idemp_l.
    f_equal. lia.
Qed.

End Wraparound.

(** C4: over a non-empty view of length n, Next maps the cursor c to
    (c+1) mod n and Previous maps it to (c-1+n) mod n; n presses of Next, or
    of Previous, bring the cursor back to where it was; Previous at cursor 0
    of a three-record view gives cursor 2. *)
Theorem C4_cursor_wraparound
    (re_other : string -> option (string -> bool))
    (search_wide : string -> string -> bool)
    (df : list Question) (w : Widgets) (st : SessionState) :
  mode w = Flashcards ->
  in_range (filtered_df df (selected_categories w)) st ->
  current_index (step re_other search_wide df w Next st)
  = (current_index st + 1) mod Z.of_nat (length (filtered_df df (selected_categories w)))
  /\ current_index (step re_other search_wide df w Previous st)
     = (current_index st - 1 + Z.of_nat (length (filtered_df df (selected_categories w))))
       mod Z.of_nat (length (filtered_df df (selected_categories w)))
  /\ current_index
       (Nat.iter (length (filtered_df df (selected_categories w)))
          (step re_other search_wide df w Next) st) = current_index st
  /\ current_index
       (Nat.iter (length (filtered_df df (selected_categories w)))
          (step re_other search_wide df w Previous) st) = current_index st
  /\ (length (filtered_df df (selected_categories w)) = 3%nat ->
      current_index st = 0 ->
      current_index (step re_other search_wide df w Previous st) = 2).
Proof.
  intros Hm Hr.
  set (view := filtered_df df (selected_categories w)) in *.
  assert (Hprev : current_index (step re_other search_wide df w Previous st)
                  = (current_index st - 1 + Z.of_nat (length view))
                    mod Z.of_nat (length view)).
  { destruct (press_navigation_in_range re_other search_wide df w Hm Previous st Hr eq_refl)
      as [-> _].
    cbn [navigate set_reveal set_current_index current_index]. fold view.
    rewrite <- (Z_mod_plus_full (current_index st - 1) 1 (Z.of_nat (length view))).
    f_equal. lia. }
  split; [|split; [|split; [|split]]].
  - destruct (press_navigation_in_range re_other search_wide df w Hm Next st Hr eq_refl)
      as [-> _].
    reflexivity.
  - exact Hprev.
  - destruct (iter_next re_other search_wide df w Hm (length view) st Hr) as [_ ->].
    rewrite <- (Z.mul_1_l (Z.of_nat (length view))) at 1.
    rewrite Z_mod_plus_full. apply Z.mod_small, Hr.
  - destruct (iter_previous re_other search_wide df w Hm (length view) st Hr) as [_ ->].
    replace (current_index st - Z.of_nat (length view))
      with (current_index st + (-1) * Z.of_nat (length view)) by lia.
    rewrite Z_mod_plus_full. apply Z.mod_small, Hr.
  - intros H3 H0. rewrite Hprev, H3, H0. reflexivity.
Qed.

Lemma C4_cursor_wraparound_witness :
  in_range (filtered_df demo_table []) (mkState ∅ 4 false false)
  /\ current_index
       (step no_other no_wide demo_table (mkWidgets Flashcards [] "") Next
          (mkState ∅ 4 false false)) = (4 + 1) mod 5.
Proof.
  assert (H : in_range (filtered_df demo_table []) (mkState ∅ 4 false false)).
  { unfold in_range. simpl. lia. }
  split; [exact H|].
  exact (proj1 (C4_cursor_wraparound no_other no_wide demo_table
                  (mkWidgets Flashcards [] "") (mkState ∅ 4 false false)
                  eq_refl H)).
Defined.

(** ** Bookmarks *)

Lemma set_add_twice (id : Z) (s : gset Z) : set_add id (set_add id s) = set_add id s.
Proof.
  unfold set_add. apply set_eq. intros x. rewrite !elem_of_union. tauto.
Qed.

Lemma set_add_swap (a b : Z) (s : gset Z) :
  set_add a (set_add b s) = set_add b (set_add a s).
Proof.
  unfold set_add. apply set_eq. intros x. rewrite !elem_of_union. tauto.
Qed.

Lemma set_remove_present (id : Z) (s : gset Z) :
  id ∈ s -> set_remove id s = Some (s ∖ {[id]}).
Proof. intros H. unfold set_remove. rewrite (bool_decide_eq_true_2 _ H). reflexivity. Qed.

Lemma set_remove_absent (id : Z) (s : gset Z) : id ∉ s -> set_remove id s = None.
Proof. intros H. unfold set_remove. rewrite (bool_decide_eq_false_2 _ H). reflexivity. Qed.

(** C6, the claim as stated fails: removing an id that is absent from the
    set is not a no-op, [set.remove] raises [KeyError]. *)
Lemma C6_counterexample :
  (3 ∉ (∅ : gset Z))
  /\ set_remove 3 ∅ = None
  /\ set_remove 3 ∅ <> Some ∅.
Proof.
  split; [|split].
  - apply not_elem_of_empty.
  - reflexivity.
  - discriminate.
Qed.

(** C6 (amended): adding an id twice leaves the Bookmark Set as a single
    add does; removing an id that is in the set deletes it; removing an id
    that is absent raises [KeyError] instead of being a no-op, and no user
    action reaches that case, since every removal in the pages is guarded by
    a membership test. *)
Theorem C6_bookmark_operations
    (re_other : string -> option (string -> bool))
    (search_wide : string -> string -> bool) :
  (forall (id : Z) (s : gset Z), set_add id (set_add id s) = set_add id s)
  /\ (forall (id : Z) (s : gset Z), id ∈ s -> set_remove id s = Some (s ∖ {[id]}))
  /\ (forall (id : Z) (s : gset Z), id ∉ s -> set_remove id s = None)
  /\ (forall (df : list Question) (w : Widgets) (click : Click)
             (st st' : SessionState) (id : Z),
        run re_other search_wide df w click st <> Raised st' (KeyError id)).
Proof.
  split; [|split; [|split]].
  - apply set_add_twice.
  - apply set_remove_present.
  - apply set_remove_absent.
  - intros. apply run_no_key_error.
Qed.

Lemma C6_bookmark_operations_witness :
  (3 ∈ ({[3]} : gset Z))
  /\ set_remove 3 {[3]} = Some ({[3]} ∖ {[3]})
  /\ (4 ∉ ({[3]} : gset Z))
  /\ set_remove 4 {[3]} = None.
Proof.
  assert (H3 : 3 ∈ ({[3]} : gset Z)) by (eapply bool_decide_eq_true_1; reflexivity).
  assert (H4 : 4 ∉ ({[3]} : gset Z)) by (eapply bool_decide_eq_false_1; reflexivity).
  split; [exact H3|]. split.
  - exact (proj1 (proj2 (C6_bookmark_operations no_other no_wide)) 3 {[3]} H3).
  - split; [exact H4|].
    exact (proj1 (proj2 (proj2 (C6_bookmark_operations no_other no_wide))) 4 {[3]} H4).
Defined.

Lemma map_ID_filter (P : Z -> bool) (df : list Question) :
  map ID (List.filter (fun r => P (ID r)) df) = List.filter P (map ID df).
Proof.
  induction df as [|r df IH]; simpl; [reflexivity|].
  destruct (P (ID r)); simpl; congruence.
Qed.

(** C8: on a table whose ids are pairwise distinct, the bookmarks page lists
    exactly the records of the loaded table whose id is in the Bookmark Set,
    in table order.  Whatever the order in which the ids were bookmarked,
    the ids listed are the ids of the table, in table order, restricted to
    the bookmarked ones. *)
Theorem C8_bookmarks_in_table_order
    (re_other : string -> option (string -> bool))
    (search_wide : string -> string -> bool)
    (df : list Question) (w : Widgets) (st : SessionState) :
  NoDup (map ID df) ->
  mode w = MyBookmarks ->
  bookmarks st <> ∅ ->
  run re_other search_wide df w NoClick st
  = Finished st (BookmarksPage (bookmark_df df (bookmarks st)))
  /\ bookmark_df df (bookmarks st)
     = List.filter (fun r => bool_decide (ID r ∈ bookmarks st)) df
  /\ (forall r, r ∈ bookmark_df df (bookmarks st) <-> r ∈ df /\ ID r ∈ bookmarks st)
  /\ sublist (bookmark_df df (bookmarks st)) df
  /\ (forall insertion_order : list Z,
        bookmarks st = list_to_set insertion_order ->
        map ID (bookmark_df df (bookmarks st))
        = List.filter (fun id => bool_decide (id ∈ insertion_order)) (map ID df)).
Proof.
  intros Hnd Hm Hne. split; [|split; [|split; [|split]]].
  - unfold run. simpl. unfold main_area. rewrite Hm. unfold my_bookmarks.
    rewrite (bool_decide_eq_false_2 _ Hne), bookmarks_loop_idle. reflexivity.
  - apply bookmark_df_filter.
  - intros r. rewrite bookmark_df_filter, list_filter_elem_of, bool_decide_eq_true.
    reflexivity.
  - rewrite bookmark_df_filter. apply list_filter_sublist.
  - intros order Ho. rewrite bookmark_df_filter.
    etransitivity;
      [exact (map_ID_filter (fun id => bool_decide (id ∈ bookmarks st)) df)|].
    apply List.filter_ext. intros id. apply bool_decide_ext.
    rewrite Ho. apply elem_of_list_to_set.
Qed.

Lemma C8_bookmarks_in_table_order_witness :
  NoDup (map ID demo_table)
  /\ run no_other no_wide demo_table (mkWidgets MyBookmarks ["Hooks"] "") NoClick
       (mkState (set_add 2 (set_add 502 ∅)) 0 false false)
     = Finished (mkState (set_add 2 (set_add 502 ∅)) 0 false false)
         (BookmarksPage (bookmark_df demo_table (set_add 2 (set_add 502 ∅)))).
Proof.
  assert (Hnd : NoDup (map ID demo_table)) by (eapply bool_decide_eq_true_1; reflexivity).
  assert (Hne : bookmarks (mkState (set_add 2 (set_add 502 ∅)) 0 false false) <> ∅)
    by (eapply bool_decide_eq_false_1; reflexivity).
  split; [exact Hnd|].
  exact (proj1 (C8_bookmarks_in_table_order no_other no_wide demo_table
                  (mkWidgets MyBookmarks ["Hooks"] "")
                  (mkState (set_add 2 (set_add 502 ∅)) 0 false false)
                  Hnd eq_refl Hne)).
Defined.

(** Record 2 is listed before record 502, although 502 was bookmarked
    first. *)
Lemma bookmarks_page_example :
  map ID (bookmark_df demo_table (set_add 2 (set_add 502 ∅))) = [2; 502].
Proof. reflexivity. Qed.

(** ** Flashcards, search and reveal *)

(** C9: on the flashcard page the outcome of a user action (the card shown
    and the state left behind) does not depend on the text of the search
    box. *)
Theorem C9_flashcards_ignore_search
    (re_other : string -> option (string -> bool))
    (search_wide : string -> string -> bool)
    (df : list Question) (categories : list string) (query query' : string)
    (click : Click) (st : SessionState) :
  run re_other search_wide df (mkWidgets Flashcards categories query) click st
  = run re_other search_wide df (mkWidgets Flashcards categories query') click st.
Proof. unfold run. destruct click; reflexivity. Qed.

(** C10: a change of the category filter, like every user action other than
    the three navigation buttons and the reveal button, leaves the Reveal
    Flag as it was; on the flashcard page the card then under the clamped
    cursor is shown with its answer exactly when the flag was set before. *)
Theorem C10_filter_change_keeps_reveal
    (re_other : string -> option (string -> bool))
    (search_wide : string -> string -> bool)
    (df : list Question) (w : Widgets) (st : SessionState) :
  reveal (step re_other search_wide df w NoClick st) = reveal st
  /\ (forall click, is_navigation click = false -> click <> RevealAnswer ->
        reveal (step re_other search_wide df w click st) = reveal st)
  /\ (mode w = Flashcards ->
      filtered_df df (selected_categories w) <> [] ->
      0 <= current_index st ->
      exists q,
        iloc (filtered_df df (selected_categories w))
          (current_index (clamp (filtered_df df (selected_categories w)) st)) = Some q
        /\ run re_other search_wide df w NoClick st
           = Finished (clamp (filtered_df df (selected_categories w)) st)
               (FlashcardPage q (bool_decide (ID q ∈ bookmarks st))
                  (if reveal st then Some (Answer q) else None))).
Proof.
  split; [|split].
  - apply step_reveal_frame; [reflexivity | discriminate].
  - intros click Hnav Hv. apply step_reveal_frame; assumption.
  - intros Hm Hne H0.
    destruct (script_idle_flashcards re_other search_wide df w st Hm Hne H0)
      as (q & Hq & E).
    exists q. split; [exact Hq|]. unfold run. rewrite E. reflexivity.
Qed.

Lemma C10_filter_change_keeps_reveal_witness :
  exists q,
    iloc (filtered_df demo_table ["Hooks"])
      (current_index (clamp (filtered_df demo_table ["Hooks"]) (mkState ∅ 3 true false)))
    = Some q
    /\ run no_other no_wide demo_table (mkWidgets Flashcards ["Hooks"] "") NoClick
         (mkState ∅ 3 true false)
       = Finished (clamp (filtered_df demo_table ["Hooks"]) (mkState ∅ 3 true false))
           (FlashcardPage q (bool_decide (ID q ∈ (∅ : gset Z)))
              (if true then Some (Answer q) else None)).
Proof.
  assert (H0 : 0 <= current_index (mkState ∅ 3 true false)) by (simpl; lia).
  assert (Hne : filtered_df demo_table ["Hooks"] <> []) by discriminate.
  exact (proj2 (proj2 (C10_filter_change_keeps_reveal no_other no_wide demo_table
                         (mkWidgets Flashcards ["Hooks"] "")
                         (mkState ∅ 3 true false)))
           eq_refl Hne H0).
Defined.

(** Spelled out: the cursor was on record 501 with its answer revealed;
    after the filter is set to Hooks the cursor is 0 and record 2 is shown
    with its answer. *)
Lemma filter_change_example :
  run no_other no_wide demo_table (mkWidgets Flashcards ["Hooks"] "") NoClick
    (mkState ∅ 3 true false)
  = Finished (mkState ∅ 0 true false)
      (FlashcardPage (mkQuestion 2 "Hooks" "What is useEffect?" "A hook for side effects.")
         false (Some "A hook for side effects.")).
Proof. reflexivity. Qed.

(** * Further properties of the script *)

(** ** The category options of the sidebar *)

Lemma unique_from_elem_of (seen l : list string) (x : string) :
  x ∈ unique_from seen l <-> x ∈ l /\ x ∉ seen.
Proof.
  revert seen. induction l as [|y l IH]; intros seen; simpl.
  - split; [intros H; inversion H | intros [H _]; inversion H].
  - destruct (bool_decide (y ∈ seen)) eqn:E.
    + apply bool_decide_eq_true in E. rewrite IH, elem_of_cons.
      split; [tauto|]. intros [[-> | H] Hn]; [contradiction | tauto].
    + apply bool_decide_eq_false in E. rewrite !elem_of_cons, IH, elem_of_cons.
      split.
      * intros [-> | [H Hn]]; [tauto|]. split; [tauto|]. intros Hs. apply Hn. tauto.
      * intros [[-> | H] Hn]; [tauto|].
        destruct (decide (x = y)) as [-> | Hxy]; [tauto|].
        right. split; [exact H|]. intros [? | ?]; [contradiction | contradiction].
Qed.

Lemma unique_from_NoDup (seen l : list string) : NoDup (unique_from seen l).
Proof.
  revert seen. induction l as [|y l IH]; intros seen; simpl; [constructor|].
  destruct (bool_decide (y ∈ seen)); [apply IH|].
  constructor; [|apply IH].
  rewrite unique_from_elem_of, elem_of_cons. tauto.
Qed.

Lemma insert_sorted_perm (x : string) (l : list string) : insert_sorted x l ≡ₚ x :: l.
Proof.
  induction l as [|y l IH]; simpl; [reflexivity|].
  destruct (String.leb x y); [reflexivity|].
  rewrite IH. apply Permutation_swap.
Qed.

Lemma sorted_perm (l : list string) : sorted l ≡ₚ l.
Proof.
  induction l as [|x l IH]; simpl; [reflexivity|].
  rewrite insert_sorted_perm, IH. reflexivity.
Qed.

Lemma insert_sorted_Sorted (x : string) (l : list string) :
  Sorted (fun a b => String.leb a b = true) l ->
  Sorted (fun a b => String.leb a b = true) (insert_sorted x l).
Proof.
  induction 1 as [|y l Hl IH Hhd]; simpl.
  - repeat constructor.
  - destruct (String.leb x y) eqn:E.
    + constructor; [constructor; assumption | constructor; exact E].
    + constructor; [exact IH|].
      assert (Hyx : String.leb y x = true).
      { destruct (String.leb_total x y) as [H | H]; [congruence | exact H]. }
      destruct Hhd as [|z l' Hyz]; simpl.
      * constructor. exact Hyx.
      * destruct (String.leb x z); constructor; assumption.
Qed.

Lemma sorted_Sorted (l : list string) :
  Sorted (fun a b => String.leb a b = true) (sorted l).
Proof.
  induction l as [|x l IH]; simpl; [constructor|].
  apply insert_sorted_Sorted, IH.
Qed.

Lemma all_categories_elem_of (df : list Question) (c : string) :
  c ∈ all_categories df <-> exists r, r ∈ df /\ Category r = c.
Proof.
  unfold all_categories. rewrite sorted_perm. unfold unique.
  rewrite unique_from_elem_of, list_elem_of_fmap.
  split.
  - intros [(r & -> & Hr) _]. eauto.
  - intros (r & Hr & <-). split; [eauto|]. apply not_elem_of_nil.
Qed.

(** X1: the options offered by the category filter are the categories that
    occur in the table, each once, in ascending string order. *)
Theorem X1_category_options (df : list Question) :
  Sorted (fun a b => String.leb a b = true) (all_categories df)
  /\ NoDup (all_categories df)
  /\ forall c, c ∈ all_categories df <-> exists r, r ∈ df /\ Category r = c.
Proof.
  split; [apply sorted_Sorted|]. split.
  - unfold all_categories. rewrite sorted_perm. apply unique_from_NoDup.
  - apply all_categories_elem_of.
Qed.

(** ** The category filter *)

Lemma boolean_index_sublist {A : Type} (rows : list A) (mask : list bool) :
  sublist (boolean_index rows mask) rows.
Proof.
  revert mask. induction rows as [|r rows IH]; intros [|b mask]; simpl;
    try apply sublist_nil_l.
  destruct b; constructor; apply IH.
Qed.

Lemma filtered_df_elem_of (df : list Question) (C : list string) (r : Question) :
  r ∈ filtered_df df C <-> r ∈ df /\ (C = [] \/ Category r ∈ C).
Proof.
  rewrite filtered_df_filter, list_filter_elem_of.
  destruct C as [|c C]; simpl.
  - split; [tauto | intros [H _]; tauto].
  - rewrite bool_decide_eq_true. split; [tauto|].
    intros [H [H' | H']]; [discriminate | tauto].
Qed.


Lemma zip_rows_categories (ids cats qs ans : list cell) (rows : list Question) :
  zip_rows ids cats qs ans = Some rows -> map astype_str cats = map Category rows.
Proof.
  revert cats qs ans rows.
  induction ids as [|i ids IH]; intros cats qs ans rows; simpl.
  - destruct cats, qs, ans; try discriminate. intros [= <-]. reflexivity.
  - destruct i as [z|]; [|discriminate].
    destruct cats as [|[|c] cats]; try discriminate.
    destruct qs as [|[|q] qs]; try discriminate.
    destruct ans as [|[|a] ans]; try discriminate.
    destruct (zip_rows ids cats qs ans) as [rows'|] eqn:E; [|discriminate].
    intros [= <-]. simpl. f_equal. apply (IH _ _ _ _ E).
Qed.

(** On a frame with the four typed columns the options computed from the
    frame are those of its rows. *)
Lemma category_options_records (frame : DataFrame) (df : list Question) :
  records frame = Some df -> category_options frame = Some (all_categories df).
Proof.
  unfold records, category_options, all_categories.
  destruct (column "ID" frame) as [ids|]; [|discriminate].
  destruct (column "Category" frame) as [cats|]; [|discriminate].
  destruct (column "Question" frame) as [qs|]; [|discriminate].
  destruct (column "Answer" frame) as [ans|]; [|discriminate].
  intros H. rewrite (zip_rows_categories _ _ _ _ _ H). reflexivity.
Qed.

(** On a [Category] column that reads as numbers the options are the
    numerals as strings, which the raw column does not hold; such a frame
    has no rows in the sense of [records]. *)
Lemma numeric_categories_example :
  category_options csv_with_numeric_categories = Some ["10"]
  /\ records csv_with_numeric_categories = None.
Proof. split; reflexivity. Qed.

(** X2: on a table whose [Category] column holds strings (a frame that has
    rows in the sense of [records]), a selection made from the offered
    options never empties the view: for every selected option the view
    holds a record of that category. *)
Theorem X2_selection_from_options_is_not_empty
    (frame : DataFrame) (df : list Question) (options selected : list string)
    (c : string) :
  records frame = Some df ->
  category_options frame = Some options ->
  c ∈ selected -> c ∈ options ->
  (exists r, r ∈ filtered_df df selected /\ Category r = c)
  /\ filtered_df df selected <> [].
Proof.
  intros Hrec Hopts Hsel Hopt.
  rewrite (category_options_records frame df Hrec) in Hopts.
  injection Hopts as <-.
  apply all_categories_elem_of in Hopt as (r & Hr & Hc).
  assert (Hin : r ∈ filtered_df df selected).
  { apply filtered_df_elem_of. split; [exact Hr|]. right. rewrite Hc. exact Hsel. }
  split; [eauto|]. intros E. rewrite E in Hin. inversion Hin.
Qed.

Lemma X2_selection_from_options_is_not_empty_witness :
  records create_demo_data = Some demo_table
  /\ category_options create_demo_data
     = Some ["Basics"; "Components"; "Hooks"; "System Design"]
  /\ filtered_df demo_table ["Hooks"; "Basics"] <> [].
Proof.
  assert (H1 : "Hooks" ∈ ["Hooks"; "Basics"]) by (eapply bool_decide_eq_true_1; reflexivity).
  assert (H2 : "Hooks" ∈ ["Basics"; "Components"; "Hooks"; "System Design"])
    by (eapply bool_decide_eq_true_1; reflexivity).
  split; [reflexivity|]. split; [reflexivity|].
  exact (proj2 (X2_selection_from_options_is_not_empty create_demo_data demo_table
                  ["Basics"; "Components"; "Hooks"; "System Design"]
                  ["Hooks"; "Basics"] "Hooks" eq_refl eq_refl H1 H2)).
Defined.

(** ** The search box *)

Lemma display_df_sublist
    (re_other : string -> option (string -> bool))
    (search_wide : string -> string -> bool)
    (filtered d : list Question) (q : string) :
  display_df re_other search_wide filtered q = Some d -> sublist d filtered.
Proof.
  unfold display_df. destruct (String.eqb q "").
  - intros [= <-]. reflexivity.
  - destruct (str_contains _ _ q (map Question_ filtered)) as [mq|]; [|discriminate].
    destruct (str_contains _ _ q (map Answer filtered)) as [ma|]; [|discriminate].
    intros [= <-]. apply boolean_index_sublist.
Qed.


(** X4: whatever the query, the records the browse page lists are taken
    from the category-filtered view, and so from the table, without
    reordering or repetition: the list is a subsequence of both. *)
Theorem X4_search_results_are_a_subsequence
    (re_other : string -> option (string -> bool))
    (search_wide : string -> string -> bool)
    (df d : list Question) (C : list string) (q : string) :
  display_df re_other search_wide (filtered_df df C) q = Some d ->
  sublist d (filtered_df df C)
  /\ sublist d df
  /\ (length d <= length (filtered_df df C) <= length df)%nat.
Proof.
  intros H. apply display_df_sublist in H.
  assert (H' : sublist (filtered_df df C) df).
  { rewrite filtered_df_filter. apply list_filter_sublist. }
  split; [exact H|]. split; [etransitivity; eassumption|].
  split; apply sublist_length; assumption.
Qed.

Lemma X4_search_results_are_a_subsequence_witness :
  display_df no_other no_wide (filtered_df demo_table ["System Design"]) "chat"
  = Some [mkQuestion 502 "System Design" "Architect a Real-Time Chat App."
            "Use WebSockets, Optimistic UI, and IndexedDB."]
  /\ sublist
       [mkQuestion 502 "System Design" "Architect a Real-Time Chat App."
          "Use WebSockets, Optimistic UI, and IndexedDB."]
       demo_table.
Proof.
  assert (H : display_df no_other no_wide (filtered_df demo_table ["System Design"]) "chat"
              = Some [mkQuestion 502 "System Design" "Architect a Real-Time Chat App."
                        "Use WebSockets, Optimistic UI, and IndexedDB."])
    by reflexivity.
  split; [exact H|].
  exact (proj1 (proj2 (X4_search_results_are_a_subsequence no_other no_wide demo_table
                         _ ["System Design"] "chat" H))).
Defined.

(** X5: for a query made of ordinary 7-bit characters only (none that a
    regular expression reads as an operator), over a table of 7-bit text,
    the browse page lists exactly the records that pass the category filter
    and whose question or answer holds the query as a substring up to letter
    case, in table order. *)
Theorem X5_plain_query_is_a_substring_search
    (re_other : string -> option (string -> bool))
    (search_wide : string -> string -> bool)
    (T : list Question) (C : list string) (Q : string) :
  plain Q = true -> ascii_table T = true ->
  display_df re_other search_wide (filtered_df T C) Q
  = Some (List.filter (fun r => spec_category_pred C r && spec_text_pred Q r) T).
Proof. intros Hq Ht. apply (filter_plain_correct re_other search_wide T C Q Hq Ht). Qed.

Lemma X5_plain_query_is_a_substring_search_witness :
  plain "USEEFFECT" = true
  /\ ascii_table demo_table = true
  /\ option_map (map ID) (display_df no_other no_wide (filtered_df demo_table []) "USEEFFECT")
     = Some [2].
Proof.
  split; [reflexivity|]. split; [reflexivity|].
  rewrite (X5_plain_query_is_a_substring_search no_other no_wide demo_table []
             "USEEFFECT" eq_refl eq_refl).
  reflexivity.
Defined.



(** ** What the buttons do to the bookmark set *)

Lemma toggled_elem_of (id x : Z) (b : gset Z) :
  x ∈ toggled id b <-> (x = id /\ id ∉ b) \/ (x <> id /\ x ∈ b).
Proof.
  unfold toggled, set_add. destruct (bool_decide (id ∈ b)) eqn:E.
  - apply bool_decide_eq_true in E.
    rewrite elem_of_difference, elem_of_singleton.
    split; [intros [H Hn]; right; tauto | intros [[-> Hn] | [Hn H]]; tauto].
  - apply bool_decide_eq_false in E.
    rewrite elem_of_union, elem_of_singleton.
    split.
    + intros [-> | H]; [left; tauto|]. right. split; [|exact H].
      intros ->. contradiction.
    + intros [[-> _] | [_ H]]; tauto.
Qed.

Lemma toggled_involutive (id : Z) (b : gset Z) : toggled id (toggled id b) = b.
Proof.
  apply set_eq. intros x. rewrite !toggled_elem_of.
  destruct (decide (x = id)) as [-> | Hx]; destruct (decide (id ∈ b)); tauto.
Qed.

Lemma toggle_bookmark_toggled (id : Z) (st : SessionState) :
  toggle_bookmark id (bool_decide (id ∈ bookmarks st)) st
  = Rerun (set_bookmarks (toggled id (bookmarks st)) st).
Proof.
  unfold toggle_bookmark, toggled, set_remove.
  destruct (bool_decide (id ∈ bookmarks st)); reflexivity.
Qed.

Lemma member_head (y : Z) (l : list Z) : bool_decide (y ∈ y :: l) = true.
Proof. apply bool_decide_eq_true_2, list_elem_of_here. Qed.

Lemma member_tail (x y : Z) (l : list Z) :
  x <> y -> bool_decide (x ∈ y :: l) = bool_decide (x ∈ l).
Proof. intros H. apply bool_decide_ext. rewrite elem_of_cons. tauto. Qed.

Lemma browse_loop_star (rows : list Question) (id : Z) (st : SessionState) :
  browse_loop rows (BrowseStar id) st
  = if bool_decide (id ∈ map ID rows)
    then inr (Rerun (set_bookmarks (toggled id (bookmarks st)) st))
    else inl (map (fun r => (r, bool_decide (ID r ∈ bookmarks st))) rows).
Proof.
  induction rows as [|row rows IH]; [reflexivity|].
  cbn [browse_loop pressed_star map].
  destruct (Z.eqb_spec id (ID row)) as [-> | Hne].
  - rewrite member_head, toggle_bookmark_toggled. reflexivity.
  - rewrite IH, (member_tail _ _ _ Hne).
    destruct (bool_decide (id ∈ map ID rows)); reflexivity.
Qed.

Lemma browse_loop_other (rows : list Question) (click : Click) (st : SessionState) :
  (forall id, click <> BrowseStar id) ->
  browse_loop rows click st
  = inl (map (fun r => (r, bool_decide (ID r ∈ bookmarks st))) rows).
Proof.
  intros Hc. induction rows as [|row rows IH]; [reflexivity|].
  cbn [browse_loop map]. rewrite IH.
  destruct click; try reflexivity. exfalso. exact (Hc id eq_refl).
Qed.

Lemma bookmarks_loop_remove (rows : list Question) (id : Z) (st : SessionState) :
  Forall (fun r => ID r ∈ bookmarks st) rows ->
  bookmarks_loop rows (RemoveBookmark id) st
  = if bool_decide (id ∈ map ID rows)
    then inr (Rerun (set_bookmarks (bookmarks st ∖ {[id]}) st))
    else inl rows.
Proof.
  induction 1 as [|row rows Hrow _ IH]; [reflexivity|].
  cbn [bookmarks_loop pressed_remove map].
  destruct (Z.eqb_spec id (ID row)) as [-> | Hne].
  - rewrite member_head, (set_remove_present _ _ Hrow). reflexivity.
  - rewrite IH, (member_tail _ _ _ Hne).
    destruct (bool_decide (id ∈ map ID rows)); reflexivity.
Qed.

Lemma bookmarks_loop_other (rows : list Question) (click : Click) (st : SessionState) :
  (forall id, click <> RemoveBookmark id) ->
  bookmarks_loop rows click st = inl rows.
Proof.
  intros Hc. induction rows as [|row rows IH]; [reflexivity|].
  cbn [bookmarks_loop]. rewrite IH.
  destruct click; try reflexivity. exfalso. exact (Hc id eq_refl).
Qed.

Lemma iloc_elem_of (view : list Question) (i : Z) (q : Question) :
  iloc view i = Some q -> q ∈ view.
Proof.
  unfold iloc. intros H.
  destruct ((0 <=? i) && (i <? Z.of_nat (length view))).
  - apply list_elem_of_lookup. eauto.
  - destruct ((- Z.of_nat (length view) <=? i) && (i <? 0)); [|discriminate].
    apply list_elem_of_lookup. eauto.
Qed.

Lemma sublist_elem_of {A : Type} (l1 l2 : list A) (x : A) :
  sublist l1 l2 -> x ∈ l1 -> x ∈ l2.
Proof.
  induction 1 as [|y l1 l2 _ IH|y l1 l2 _ IH]; intros Hx.
  - exact Hx.
  - apply elem_of_cons in Hx as [-> | Hx]; [left | right; apply IH, Hx].
  - right. apply IH, Hx.
Qed.

Lemma elem_of_map_ID (rows : list Question) (r : Question) :
  r ∈ rows -> ID r ∈ map ID rows.
Proof. intros H. apply list_elem_of_fmap. eauto. Qed.

(** ** Executions with no button pressed *)

Section Idle.

Variable re_other : string -> option (string -> bool).
Variable search_wide : string -> string -> bool.
Variable df : list Question.
Variable w : Widgets.

Local Abbreviation view := (filtered_df df (selected_categories w)).

Lemma run_idle (st : SessionState) :
  run re_other search_wide df w NoClick st = script re_other search_wide df w NoClick st.
Proof.
  unfold run. destruct (script re_other search_wide df w NoClick st) eqn:E; try reflexivity.
  exfalso. exact (script_idle_settles _ _ _ _ _ _ E).
Qed.

Lemma run_rerun (click : Click) (st st1 : SessionState) :
  script re_other search_wide df w click st = Rerun st1 ->
  run re_other search_wide df w click st = script re_other search_wide df w NoClick st1.
Proof. intros E. unfold run. rewrite E. reflexivity. Qed.

Lemma script_idle_flashcards_state (st : SessionState) :
  mode w = Flashcards -> view <> [] ->
  state_of (script re_other search_wide df w NoClick st) = clamp view st.
Proof.
  intros Hm Hne. rewrite (script_flashcards _ _ df w NoClick st Hm Hne) by discriminate.
  unfold flashcard. destruct (iloc _ _); reflexivity.
Qed.

Lemma flashcards_or_elsewhere :
  (mode w = Flashcards /\ view <> []) \/ (mode w <> Flashcards \/ view = []).
Proof.
  destruct (mode w); try (right; left; discriminate).
  destruct view; [right; right; reflexivity | left; split; [reflexivity | discriminate]].
Qed.

Lemma script_idle_bookmarks (st : SessionState) :
  bookmarks (state_of (script re_other search_wide df w NoClick st)) = bookmarks st.
Proof.
  destruct flashcards_or_elsewhere as [[Hm Hne] | H].
  - rewrite (script_idle_flashcards_state st Hm Hne). apply clamp_bookmarks.
  - rewrite (script_idle_elsewhere _ _ df w st H). reflexivity.
Qed.

Lemma clamp_clamp (l : list Question) (st : SessionState) :
  clamp l (clamp l st) = clamp l st.
Proof.
  destruct (Z.leb_spec (Z.of_nat (length l)) (current_index st)) as [H|H].
  - rewrite (clamp_reset l st H). unfold clamp. simpl.
    destruct (Z.of_nat (length l) <=? 0); reflexivity.
  - assert (E : clamp l st = st).
    { unfold clamp.
      destruct (Z.leb_spec (Z.of_nat (length l)) (current_index st)); [lia | reflexivity]. }
    rewrite !E. reflexivity.
Qed.

End Idle.

(** X7: an execution triggered by a change of mode, filter or search text
    alone changes the session state in one way only: on the flashcard page
    over a non-empty view an out-of-range cursor is set to 0.  Bookmarks and
    the Reveal Flag survive, and executing again changes nothing more. *)
Theorem X7_rerun_without_button
    (re_other : string -> option (string -> bool))
    (search_wide : string -> string -> bool)
    (df : list Question) (w : Widgets) (st : SessionState) :
  (mode w = Flashcards -> filtered_df df (selected_categories w) <> [] ->
   step re_other search_wide df w NoClick st
   = clamp (filtered_df df (selected_categories w)) st)
  /\ (mode w <> Flashcards \/ filtered_df df (selected_categories w) = [] ->
      step re_other search_wide df w NoClick st = st)
  /\ step re_other search_wide df w NoClick (step re_other search_wide df w NoClick st)
     = step re_other search_wide df w NoClick st.
Proof.
  unfold step. rewrite !run_idle.
  assert (H1 : mode w = Flashcards -> filtered_df df (selected_categories w) <> [] ->
               forall s, state_of (script re_other search_wide df w NoClick s)
                         = clamp (filtered_df df (selected_categories w)) s).
  { intros Hm Hne s. apply script_idle_flashcards_state; assumption. }
  assert (H2 : mode w <> Flashcards \/ filtered_df df (selected_categories w) = [] ->
               forall s, state_of (script re_other search_wide df w NoClick s) = s).
  { intros H s. apply script_idle_elsewhere, H. }
  split; [intros Hm Hne; apply H1; assumption|]. split; [intros H; apply H2, H|].
  destruct (flashcards_or_elsewhere df w) as [[Hm Hne] | H].
  - rewrite !(H1 Hm Hne). apply clamp_clamp.
  - rewrite !(H2 H). reflexivity.
Qed.

Lemma X7_rerun_without_button_witness :
  step no_other no_wide demo_table (mkWidgets MyBookmarks ["Hooks"] "") NoClick
    (mkState {[3]} 4 true false)
  = mkState {[3]} 4 true false.
Proof.
  apply (proj1 (proj2 (X7_rerun_without_button no_other no_wide demo_table
                         (mkWidgets MyBookmarks ["Hooks"] "")
                         (mkState {[3]} 4 true false)))).
  left. discriminate.
Defined.

(** ** The bookmark buttons *)

(** X8: "Clear Bookmarks" empties the Bookmark Set on every page and in
    every state; the sidebar then counts 0 bookmarks, and the bookmarks
    page shows its "no bookmarks" message. *)
Theorem X8_clear_bookmarks
    (re_other : string -> option (string -> bool))
    (search_wide : string -> string -> bool)
    (df : list Question) (w : Widgets) (st : SessionState) :
  bookmarks (step re_other search_wide df w ClearBookmarks st) = ∅
  /\ bookmarked_q (step re_other search_wide df w ClearBookmarks st) = 0%nat
  /\ (mode w = MyBookmarks ->
      run re_other search_wide df w ClearBookmarks st
      = Finished (set_bookmarks ∅ st) NoBookmarksInfo).
Proof.
  assert (E : run re_other search_wide df w ClearBookmarks st
              = script re_other search_wide df w NoClick (set_bookmarks ∅ st)).
  { apply run_rerun. reflexivity. }
  assert (Hb : bookmarks (step re_other search_wide df w ClearBookmarks st) = ∅).
  { unfold step. rewrite E, script_idle_bookmarks. reflexivity. }
  split; [exact Hb|]. split.
  - unfold bookmarked_q. rewrite Hb. apply size_empty.
  - intros Hm. rewrite E. simpl. unfold main_area. rewrite Hm. reflexivity.
Qed.

Lemma X8_clear_bookmarks_witness :
  run no_other no_wide demo_table (mkWidgets MyBookmarks [] "") ClearBookmarks
    (mkState {[3]} 0 false false)
  = Finished (set_bookmarks ∅ (mkState {[3]} 0 false false)) NoBookmarksInfo.
Proof.
  exact (proj2 (proj2 (X8_clear_bookmarks no_other no_wide demo_table
                         (mkWidgets MyBookmarks [] "") (mkState {[3]} 0 false false)))
           eq_refl).
Defined.

(** X9: on the browse page the star of a listed record toggles that
    record's id in the Bookmark Set and touches nothing else: afterwards the
    id is in the set exactly when it was not before, every other id is as
    before, and a second press restores the state. *)
Theorem X9_browse_star_toggles
    (re_other : string -> option (string -> bool))
    (search_wide : string -> string -> bool)
    (df display : list Question) (w : Widgets) (st : SessionState) (r : Question) :
  mode w = BrowseSearch ->
  display_df re_other search_wide (filtered_df df (selected_categories w)) (search_query w)
  = Some display ->
  r ∈ display ->
  step re_other search_wide df w (BrowseStar (ID r)) st
  = set_bookmarks (toggled (ID r) (bookmarks st)) st
  /\ (forall x,
        x ∈ bookmarks (step re_other search_wide df w (BrowseStar (ID r)) st)
        <-> (x = ID r /\ ID r ∉ bookmarks st) \/ (x <> ID r /\ x ∈ bookmarks st))
  /\ step re_other search_wide df w (BrowseStar (ID r))
       (step re_other search_wide df w (BrowseStar (ID r)) st) = st.
Proof.
  intros Hm Hd Hr.
  assert (Hstep : forall s, step re_other search_wide df w (BrowseStar (ID r)) s
                            = set_bookmarks (toggled (ID r) (bookmarks s)) s).
  { intros s. unfold step.
    rewrite (run_rerun _ _ df w (BrowseStar (ID r)) s
               (set_bookmarks (toggled (ID r) (bookmarks s)) s)).
    - apply script_idle_elsewhere. left. congruence.
    - simpl. unfold main_area, browse_search. rewrite Hm, Hd, browse_loop_star.
      rewrite bool_decide_eq_true_2 by (apply elem_of_map_ID, Hr). reflexivity. }
  split; [apply Hstep|]. split.
  - intros x. rewrite Hstep. simpl. apply toggled_elem_of.
  - rewrite !Hstep. destruct st as [b i rv rm]. unfold set_bookmarks. simpl.
    rewrite toggled_involutive. reflexivity.
Qed.

Lemma X9_browse_star_toggles_witness :
  step no_other no_wide demo_table (mkWidgets BrowseSearch [] "hook") (BrowseStar 2)
    initial_state
  = set_bookmarks (toggled 2 ∅) initial_state.
Proof.
  assert (Hd : display_df no_other no_wide (filtered_df demo_table []) "hook"
               = Some [mkQuestion 2 "Hooks" "What is useEffect?" "A hook for side effects.";
                       mkQuestion 3 "Components"
                         "Difference between Class and Functional components?"
                         "Class uses this.state, Func uses hooks."])
    by reflexivity.
  exact (proj1 (X9_browse_star_toggles no_other no_wide demo_table _
                  (mkWidgets BrowseSearch [] "hook") initial_state
                  (mkQuestion 2 "Hooks" "What is useEffect?" "A hook for side effects.")
                  eq_refl Hd (list_elem_of_here _ _))).
Defined.

(** X10: on the flashcard page the bookmark button toggles the id of the
    card under the cursor and leaves the cursor and the Reveal Flag as they
    are; a second press restores the state. *)
Theorem X10_flashcard_star_toggles
    (re_other : string -> option (string -> bool))
    (search_wide : string -> string -> bool)
    (df : list Question) (w : Widgets) (st : SessionState) :
  mode w = Flashcards ->
  in_range (filtered_df df (selected_categories w)) st ->
  exists q,
    iloc (filtered_df df (selected_categories w)) (current_index st) = Some q
    /\ step re_other search_wide df w FlashStar st
       = set_bookmarks (toggled (ID q) (bookmarks st)) st
    /\ step re_other search_wide df w FlashStar
         (step re_other search_wide df w FlashStar st) = st.
Proof.
  intros Hm Hr. pose proof (in_range_nonempty _ _ Hr) as Hne.
  destruct (iloc_in_range _ _ Hr) as [q Hq]. exists q. split; [exact Hq|].
  assert (Hstep : forall s, current_index s = current_index st ->
            step re_other search_wide df w FlashStar s
            = set_bookmarks (toggled (ID q) (bookmarks s)) s).
  { intros s Hs.
    assert (Hrs : in_range (filtered_df df (selected_categories w)) s)
      by (unfold in_range; rewrite Hs; exact Hr).
    unfold step.
    rewrite (run_rerun _ _ df w FlashStar s
               (set_bookmarks (toggled (ID q) (bookmarks s)) s)).
    - apply (step_idle_in_range _ _ df w _ Hm). exact Hrs.
    - rewrite (script_flashcards _ _ df w FlashStar s Hm Hne) by discriminate.
      rewrite (clamp_id _ _ Hrs). unfold flashcard. rewrite Hs, Hq.
      apply toggle_bookmark_toggled. }
  split; [apply Hstep; reflexivity|].
  pose proof (Hstep st eq_refl) as E1. rewrite E1.
  pose proof (Hstep (set_bookmarks (toggled (ID q) (bookmarks st)) st) eq_refl) as E2.
  rewrite E2. clear.
  destruct st as [b i rv rm]. unfold set_bookmarks. simpl.
  rewrite toggled_involutive. reflexivity.
Qed.

Lemma X10_flashcard_star_toggles_witness :
  exists q,
    iloc (filtered_df demo_table []) 1 = Some q
    /\ step no_other no_wide demo_table (mkWidgets Flashcards [] "") FlashStar
         (mkState ∅ 1 true false)
       = set_bookmarks (toggled (ID q) ∅) (mkState ∅ 1 true false)
    /\ step no_other no_wide demo_table (mkWidgets Flashcards [] "") FlashStar
         (step no_other no_wide demo_table (mkWidgets Flashcards [] "") FlashStar
            (mkState ∅ 1 true false))
       = mkState ∅ 1 true false.
Proof.
  assert (Hr : in_range (filtered_df demo_table []) (mkState ∅ 1 true false))
    by (unfold in_range; simpl; lia).
  exact (X10_flashcard_star_toggles no_other no_wide demo_table
           (mkWidgets Flashcards [] "") (mkState ∅ 1 true false) eq_refl Hr).
Defined.

(** X13: on a table whose ids are pairwise distinct, "Remove Bookmark" of
    a record listed on the bookmarks page takes that record's id out of the
    Bookmark Set and nothing else; the page is then rendered anew from the
    smaller set, with the "no bookmarks" message when it was the last
    one. *)
Theorem X13_remove_bookmark
    (re_other : string -> option (string -> bool))
    (search_wide : string -> string -> bool)
    (df : list Question) (w : Widgets) (st : SessionState) (r : Question) :
  NoDup (map ID df) ->
  mode w = MyBookmarks ->
  r ∈ df ->
  ID r ∈ bookmarks st ->
  run re_other search_wide df w (RemoveBookmark (ID r)) st
  = Finished (set_bookmarks (bookmarks st ∖ {[ID r]}) st)
      (if bool_decide (bookmarks st ∖ {[ID r]} = ∅) then NoBookmarksInfo
       else BookmarksPage (bookmark_df df (bookmarks st ∖ {[ID r]}))).
Proof.
  intros Hnd Hm Hr Hb.
  rewrite (run_rerun _ _ df w (RemoveBookmark (ID r)) st
             (set_bookmarks (bookmarks st ∖ {[ID r]}) st)).
  - simpl. unfold main_area, my_bookmarks. rewrite Hm. simpl.
    destruct (bool_decide (bookmarks st ∖ {[ID r]} = ∅)); [reflexivity|].
    rewrite bookmarks_loop_idle. reflexivity.
  - simpl. unfold main_area, my_bookmarks. rewrite Hm.
    rewrite bool_decide_eq_false_2 by (intros E; rewrite E in Hb; inversion Hb).
    rewrite (bookmarks_loop_remove _ _ _ (bookmark_df_members df (bookmarks st))).
    rewrite bool_decide_eq_true_2; [reflexivity|].
    apply elem_of_map_ID. rewrite bookmark_df_filter.
    apply list_filter_elem_of. split; [exact Hr|]. apply bool_decide_eq_true_2, Hb.
Qed.

Lemma X13_remove_bookmark_witness :
  NoDup (map ID demo_table)
  /\ run no_other no_wide demo_table (mkWidgets MyBookmarks [] "") (RemoveBookmark 3)
    (mkState {[3]} 0 false false)
  = Finished (set_bookmarks ({[3]} ∖ {[3]}) (mkState {[3]} 0 false false))
      (if bool_decide (({[3]} : gset Z) ∖ {[3]} = ∅) then NoBookmarksInfo
       else BookmarksPage (bookmark_df demo_table ({[3]} ∖ {[3]}))).
Proof.
  assert (Hr : mkQuestion 3 "Components"
                 "Difference between Class and Functional components?"
                 "Class uses this.state, Func uses hooks." ∈ demo_table)
    by (do 2 apply list_elem_of_further; apply list_elem_of_here).
  assert (Hb : 3 ∈ ({[3]} : gset Z)) by (eapply bool_decide_eq_true_1; reflexivity).
  assert (Hnd : NoDup (map ID demo_table)) by (eapply bool_decide_eq_true_1; reflexivity).
  split; [exact Hnd|].
  exact (X13_remove_bookmark no_other no_wide demo_table (mkWidgets MyBookmarks [] "")
           (mkState {[3]} 0 false false) _ Hnd eq_refl Hr Hb).
Defined.

(** ** The flashcard buttons *)

(** X11: "Reveal Answer" flips the Reveal Flag and nothing else; the page of
    that same execution already shows the answer exactly when the flag is
    now set, and a second press restores the state. *)
Theorem X11_reveal_toggles
    (re_other : string -> option (string -> bool))
    (search_wide : string -> string -> bool)
    (df : list Question) (w : Widgets) (st : SessionState) :
  mode w = Flashcards ->
  in_range (filtered_df df (selected_categories w)) st ->
  exists q,
    iloc (filtered_df df (selected_categories w)) (current_index st) = Some q
    /\ run re_other search_wide df w RevealAnswer st
       = Finished (set_reveal (negb (reveal st)) st)
           (FlashcardPage q (bool_decide (ID q ∈ bookmarks st))
              (if negb (reveal st) then Some (Answer q) else None))
    /\ step re_other search_wide df w RevealAnswer
         (step re_other search_wide df w RevealAnswer st) = st.
Proof.
  intros Hm Hr. pose proof (in_range_nonempty _ _ Hr) as Hne.
  destruct (iloc_in_range _ _ Hr) as [q Hq]. exists q. split; [exact Hq|].
  assert (Hrun : forall s, current_index s = current_index st ->
            run re_other search_wide df w RevealAnswer s
            = Finished (set_reveal (negb (reveal s)) s)
                (FlashcardPage q (bool_decide (ID q ∈ bookmarks s))
                   (if negb (reveal s) then Some (Answer q) else None))).
  { intros s Hs.
    assert (Hrs : in_range (filtered_df df (selected_categories w)) s)
      by (unfold in_range; rewrite Hs; exact Hr).
    unfold run.
    rewrite (script_flashcards _ _ df w RevealAnswer s Hm Hne) by discriminate.
    rewrite (clamp_id _ _ Hrs). unfold flashcard. rewrite Hs, Hq. reflexivity. }
  split; [apply Hrun; reflexivity|].
  unfold step. pose proof (Hrun st eq_refl) as E1. rewrite E1.
  pose proof (Hrun (set_reveal (negb (reveal st)) st) eq_refl) as E2.
  cbn [state_of]. rewrite E2. clear.
  destruct st as [b i rv rm]. unfold set_reveal. simpl.
  rewrite negb_involutive. reflexivity.
Qed.

Lemma X11_reveal_toggles_witness :
  exists q,
    iloc (filtered_df demo_table []) 0 = Some q
    /\ run no_other no_wide demo_table (mkWidgets Flashcards [] "") RevealAnswer
         initial_state
       = Finished (set_reveal (negb false) initial_state)
           (FlashcardPage q (bool_decide (ID q ∈ (∅ : gset Z)))
              (if negb false then Some (Answer q) else None))
    /\ step no_other no_wide demo_table (mkWidgets Flashcards [] "") RevealAnswer
         (step no_other no_wide demo_table (mkWidgets Flashcards [] "") RevealAnswer
            initial_state)
       = initial_state.
Proof.
  assert (Hr : in_range (filtered_df demo_table []) initial_state)
    by (unfold in_range; simpl; lia).
  exact (X11_reveal_toggles no_other no_wide demo_table
           (mkWidgets Flashcards [] "") initial_state eq_refl Hr).
Defined.

(** X12: the three self-assessment buttons (Hard, Okay, Easy) do nothing:
    on every page and in every state an execution triggered by one of them
    ends exactly as an execution with no button pressed. *)
Theorem X12_feedback_buttons_are_inert
    (re_other : string -> option (string -> bool))
    (search_wide : string -> string -> bool)
    (df : list Question) (w : Widgets) (st : SessionState) :
  run re_other search_wide df w Hard st = run re_other search_wide df w NoClick st
  /\ run re_other search_wide df w Okay st = run re_other search_wide df w NoClick st
  /\ run re_other search_wide df w Easy st = run re_other search_wide df w NoClick st.
Proof.
  assert (H : forall click, click = Hard \/ click = Okay \/ click = Easy ->
            script re_other search_wide df w click st
            = script re_other search_wide df w NoClick st).
  { intros click Hc.
    assert (Hs : forall id, click <> BrowseStar id)
      by (intros id; destruct Hc as [-> | [-> | ->]]; discriminate).
    assert (Hrm : forall id, click <> RemoveBookmark id)
      by (intros id; destruct Hc as [-> | [-> | ->]]; discriminate).
    rewrite !script_main_area
      by (discriminate || (destruct Hc as [-> | [-> | ->]]; discriminate)).
    unfold main_area. destruct (mode w).
    - unfold browse_search. destruct (display_df _ _ _ _); [|reflexivity].
      rewrite (browse_loop_other _ click st Hs), browse_loop_idle. reflexivity.
    - unfold flashcards. destruct (filtered_df df (selected_categories w)); [reflexivity|].
      unfold flashcard. destruct (iloc _ _); [|reflexivity].
      destruct Hc as [-> | [-> | ->]]; reflexivity.
    - unfold my_bookmarks. destruct (bool_decide _); [reflexivity|].
      rewrite (bookmarks_loop_other _ click st Hrm), bookmarks_loop_idle. reflexivity. }
  unfold run. rewrite (H Hard), (H Okay), (H Easy) by tauto.
  repeat split.
Qed.

(** X14: over a card in range, Previous undoes Next and Next undoes
    Previous as far as the cursor goes, and neither touches the Bookmark
    Set. *)
Theorem X14_next_and_previous_are_inverse
    (re_other : string -> option (string -> bool))
    (search_wide : string -> string -> bool)
    (df : list Question) (w : Widgets) (st : SessionState) :
  mode w = Flashcards ->
  in_range (filtered_df df (selected_categories w)) st ->
  current_index (step re_other search_wide df w Previous
                   (step re_other search_wide df w Next st)) = current_index st
  /\ current_index (step re_other search_wide df w Next
                      (step re_other search_wide df w Previous st)) = current_index st
  /\ bookmarks (step re_other search_wide df w Next st) = bookmarks st
  /\ bookmarks (step re_other search_wide df w Previous st) = bookmarks st.
Proof.
  intros Hm Hr.
  pose proof (view_length_pos _ (in_range_nonempty _ _ Hr)) as Hn.
  destruct (press_navigation_in_range re_other search_wide df w Hm Next st Hr eq_refl)
    as [En Hrn].
  destruct (press_navigation_in_range re_other search_wide df w Hm Previous st Hr eq_refl)
    as [Ep Hrp].
  destruct (press_navigation_in_range re_other search_wide df w Hm Previous _ Hrn eq_refl)
    as [Epn _].
  destruct (press_navigation_in_range re_other search_wide df w Hm Next _ Hrp eq_refl)
    as [Enp _].
  split; [|split; [|split]].
  - rewrite Epn, En. cbn [navigate set_reveal set_current_index current_index].
    rewrite Zminus_mod_idemp_l.
    replace (current_index st + 1 - 1) with (current_index st) by lia.
    apply Z.mod_small, Hr.
  - rewrite Enp, Ep. cbn [navigate set_reveal set_current_index current_index].
    rewrite Z.add_mod_idemp_l by lia.
    replace (current_index st - 1 + 1) with (current_index st) by lia.
    apply Z.mod_small, Hr.
  - rewrite En. reflexivity.
  - rewrite Ep. reflexivity.
Qed.

Lemma X14_next_and_previous_are_inverse_witness :
  in_range (filtered_df demo_table []) (mkState ∅ 4 false false)
  /\ current_index
       (step no_other no_wide demo_table (mkWidgets Flashcards [] "") Previous
          (step no_other no_wide demo_table (mkWidgets Flashcards [] "") Next
             (mkState ∅ 4 false false))) = 4.
Proof.
  assert (Hr : in_range (filtered_df demo_table []) (mkState ∅ 4 false false))
    by (unfold in_range; simpl; lia).
  split; [exact Hr|].
  exact (proj1 (X14_next_and_previous_are_inverse no_other no_wide demo_table
                  (mkWidgets Flashcards [] "") (mkState ∅ 4 false false) eq_refl Hr)).
Defined.

(** ** Exceptions *)

Section Safety.

Variable re_other : string -> option (string -> bool).
Variable search_wide : string -> string -> bool.
Variable df : list Question.
Variable w : Widgets.

Local Abbreviation view := (filtered_df df (selected_categories w)).

Lemma display_df_empty_query (filtered : list Question) :
  display_df re_other search_wide filtered "" = Some filtered.
Proof. reflexivity. Qed.

Lemma script_safe (click : Click) (st : SessionState) :
  0 <= current_index st ->
  (forall st' e, script re_other search_wide df w click st = Raised st' e ->
     e = ReError /\ mode w = BrowseSearch /\ search_query w <> "" /\ st' = st)
  /\ (forall st1, script re_other search_wide df w click st = Rerun st1 ->
        0 <= current_index st1).
Proof.
  intros H0. destruct (Click_eq_clear click) as [-> | Hc].
  { split; [discriminate|]. intros st1 [= <-]. exact H0. }
  destruct (flashcards_or_elsewhere df w) as [[Hm Hne] | Hel].
  - rewrite (script_flashcards _ _ df w click st Hm Hne Hc).
    pose proof (clamp_in_range _ st Hne H0) as Hr.
    destruct (flashcard_outcome view click _ Hr)
      as [[Hnav E] | [[-> [b E]] | [[-> [page E]] | (Hnav & Hs & Hv & page & E)]]];
      rewrite E; (split; [discriminate|]); try discriminate.
    + intros st1 [= <-]. apply (navigate_in_range _ click _ Hne Hnav).
    + intros st1 [= <-]. apply Hr.
  - destruct (script_elsewhere re_other search_wide df w click st Hel)
      as [[page E] | [E | [b E]]]; rewrite E.
    + split; discriminate.
    + split; [|discriminate]. intros st' e [= <- <-].
      assert (Hm : mode w = BrowseSearch /\ search_query w <> "").
      { rewrite (script_main_area _ _ df w click st Hc) in E. unfold main_area in E.
        destruct (mode w) eqn:Hm.
        - split; [reflexivity|]. intros Hq. unfold browse_search in E.
          rewrite Hq, display_df_empty_query in E.
          destruct (browse_loop_outcome view click st) as [El | [b El]];
            rewrite El in E; discriminate.
        - unfold flashcards in E. destruct view; [discriminate|].
          destruct Hel as [? | ?]; congruence.
        - destruct (my_bookmarks_outcome df click st) as [[page El] | [b El]];
            rewrite El in E; discriminate. }
      tauto.
    + split; [discriminate|]. intros st1 [= <-]. exact H0.
Qed.

Lemma run_safe (click : Click) (st st' : SessionState) (e : Exn) :
  0 <= current_index st ->
  run re_other search_wide df w click st = Raised st' e ->
  e = ReError /\ mode w = BrowseSearch /\ search_query w <> "".
Proof.
  intros H0 E. unfold run in E.
  destruct (script re_other search_wide df w click st) as [s p | s | s x] eqn:E1;
    try discriminate.
  - pose proof (proj2 (script_safe click st H0) s E1) as Hs.
    destruct (proj1 (script_safe NoClick s Hs) st' e E) as (? & ? & ? & _). tauto.
  - injection E as <- <-.
    destruct (proj1 (script_safe click st H0) s x E1) as (? & ? & ? & _). tauto.
Qed.

End Safety.

(** X15: on a table whose ids are pairwise distinct, from a state whose
    cursor is not negative (every reachable state), the only exception a
    user action can end in is the pattern error of the search box, on the
    browse page with a non-empty query; on the other pages, and with an
    empty search box, every action ends in a rendered page. *)
Theorem X15_only_the_search_box_raises
    (re_other : string -> option (string -> bool))
    (search_wide : string -> string -> bool)
    (df : list Question) (w : Widgets) (click : Click) (st : SessionState) :
  NoDup (map ID df) ->
  0 <= current_index st ->
  (forall st' e, run re_other search_wide df w click st = Raised st' e ->
     e = ReError /\ mode w = BrowseSearch /\ search_query w <> "")
  /\ (mode w <> BrowseSearch \/ search_query w = "" ->
      exists st' page, run re_other search_wide df w click st = Finished st' page).
Proof.
  intros Hnd H0. split.
  - intros st' e E. exact (run_safe re_other search_wide df w click st st' e H0 E).
  - intros H.
    destruct (run re_other search_wide df w click st) as [s p | s | s x] eqn:E.
    + eauto.
    + exfalso. exact (run_settles _ _ _ _ _ _ _ E).
    + exfalso.
      destruct (run_safe re_other search_wide df w click st s x H0 E) as (_ & Hm & Hq).
      tauto.
Qed.

Lemma X15_only_the_search_box_raises_witness :
  NoDup (map ID demo_table)
  /\ 0 <= current_index (mkState {[3]} 7 true false)
  /\ exists st' page,
       run no_other no_wide demo_table (mkWidgets Flashcards ["Hooks"] "(") Next
         (mkState {[3]} 7 true false) = Finished st' page.
Proof.
  assert (H0 : 0 <= current_index (mkState {[3]} 7 true false)) by (simpl; lia).
  assert (Hnd : NoDup (map ID demo_table)) by (eapply bool_decide_eq_true_1; reflexivity).
  split; [exact Hnd|]. split; [exact H0|].
  apply (proj2 (X15_only_the_search_box_raises no_other no_wide demo_table
                  (mkWidgets Flashcards ["Hooks"] "(") Next
                  (mkState {[3]} 7 true false) Hnd H0)).
  left. discriminate.
Defined.

(** ** Bookmarks and the table *)

Section BookmarkIds.

Variable re_other : string -> option (string -> bool).
Variable search_wide : string -> string -> bool.
Variable df : list Question.

Lemma toggled_from (id x : Z) (b : gset Z) : x ∈ toggled id b -> x ∈ b \/ x = id.
Proof. rewrite toggled_elem_of. tauto. Qed.

Lemma filtered_ids (C : list string) (r : Question) :
  r ∈ filtered_df df C -> ID r ∈ map ID df.
Proof. intros H. apply elem_of_map_ID. apply filtered_df_elem_of in H. tauto. Qed.

Lemma script_bookmarks_from_table (w : Widgets) (click : Click) (st : SessionState)
    (x : Z) :
  x ∈ bookmarks (state_of (script re_other search_wide df w click st)) ->
  x ∈ bookmarks st \/ x ∈ map ID df.
Proof.
  destruct (Click_eq_clear click) as [-> | Hc].
  { simpl. intros H. apply elem_of_empty in H. contradiction. }
  rewrite (script_main_area _ _ df w click st Hc). unfold main_area.
  destruct (mode w).
  - unfold browse_search.
    destruct (display_df _ _ _ _) as [display|] eqn:Hd; [|simpl; tauto].
    apply display_df_sublist in Hd.
    destruct click; try (rewrite browse_loop_other by discriminate; simpl; tauto).
    rewrite browse_loop_star.
    destruct (bool_decide (id ∈ map ID display)) eqn:Hin; [|simpl; tauto].
    apply bool_decide_eq_true in Hin. apply list_elem_of_fmap in Hin as (r & -> & Hr).
    simpl. intros H. apply toggled_from in H as [H | ->]; [tauto|]. right.
    apply (filtered_ids (selected_categories w)).
    exact (sublist_elem_of _ _ _ Hd Hr).
  - unfold flashcards.
    destruct (filtered_df df (selected_categories w)) as [|r0 view] eqn:Hv; [simpl; tauto|].
    unfold flashcard.
    destruct (iloc (r0 :: view) (current_index (clamp (r0 :: view) st))) as [q|] eqn:Hq;
      [|simpl; rewrite clamp_bookmarks; tauto].
    apply iloc_elem_of in Hq. rewrite <- Hv in Hq. apply filtered_ids in Hq.
    destruct click; try (simpl; rewrite ?clamp_bookmarks; tauto).
    rewrite toggle_bookmark_toggled. simpl. rewrite clamp_bookmarks.
    intros H. apply toggled_from in H as [H | ->]; tauto.
  - unfold my_bookmarks. destruct (bool_decide (bookmarks st = ∅)); [simpl; tauto|].
    destruct click; try (rewrite bookmarks_loop_other by discriminate; simpl; tauto).
    rewrite (bookmarks_loop_remove _ _ _ (bookmark_df_members df (bookmarks st))).
    destruct (bool_decide _); [|simpl; tauto].
    simpl. rewrite elem_of_difference. tauto.
Qed.

Lemma step_bookmarks_from_table (w : Widgets) (click : Click) (st : SessionState)
    (x : Z) :
  x ∈ bookmarks (step re_other search_wide df w click st) ->
  x ∈ bookmarks st \/ x ∈ map ID df.
Proof.
  unfold step, run.
  destruct (script re_other search_wide df w click st) as [s p | s | s e] eqn:E.
  - rewrite <- E. apply script_bookmarks_from_table.
  - rewrite script_idle_bookmarks.
    replace s with (state_of (script re_other search_wide df w click st))
      by (rewrite E; reflexivity).
    apply script_bookmarks_from_table.
  - rewrite <- E. apply script_bookmarks_from_table.
Qed.

Lemma reachable_bookmarks (st : SessionState) :
  reachable re_other search_wide df st ->
  forall x, x ∈ bookmarks st -> x ∈ map ID df.
Proof.
  induction 1 as [|w click st _ IH]; intros x Hx.
  - apply elem_of_empty in Hx. contradiction.
  - apply step_bookmarks_from_table in Hx as [Hx | Hx]; [apply IH, Hx | exact Hx].
Qed.

Lemma bookmark_count (b : gset Z) :
  NoDup (map ID df) ->
  (forall x, x ∈ b -> x ∈ map ID df) ->
  length (bookmark_df df b) = size b.
Proof.
  intros Hnd Hsub.
  assert (Hnd' : NoDup (map ID (bookmark_df df b))).
  { apply (sublist_NoDup _ (map ID df)); [exact Hnd|].
    apply (fmap_sublist ID). rewrite bookmark_df_filter. apply list_filter_sublist. }
  rewrite <- (length_map ID), <- (size_list_to_set (C := gset Z)) by exact Hnd'.
  f_equal. apply set_eq. intros x.
  rewrite elem_of_list_to_set, list_elem_of_fmap. split.
  - intros (r & -> & Hr). rewrite bookmark_df_filter in Hr.
    apply list_filter_elem_of in Hr as [_ Hr]. apply bool_decide_eq_true in Hr. exact Hr.
  - intros Hx. destruct (proj1 (list_elem_of_fmap _ _ _) (Hsub x Hx)) as (r & -> & Hr).
    exists r. split; [reflexivity|]. rewrite bookmark_df_filter.
    apply list_filter_elem_of. split; [exact Hr|]. apply bool_decide_eq_true_2, Hx.
Qed.

End BookmarkIds.

(** X16: in every state a user can reach, the Bookmark Set holds ids of
    records of the table only: ids enter it through the star of a listed
    record or of the card under the cursor, and through nothing else. *)
Theorem X16_bookmarks_are_table_ids
    (re_other : string -> option (string -> bool))
    (search_wide : string -> string -> bool)
    (df : list Question) (st : SessionState) :
  reachable re_other search_wide df st ->
  forall x, x ∈ bookmarks st -> exists r, r ∈ df /\ ID r = x.
Proof.
  intros Hreach x Hx.
  apply (reachable_bookmarks re_other search_wide df st Hreach) in Hx.
  apply list_elem_of_fmap in Hx as (r & -> & Hr). eauto.
Qed.

Lemma X16_bookmarks_are_table_ids_witness :
  (2 ∈ bookmarks (step no_other no_wide demo_table (mkWidgets BrowseSearch [] "")
                    (BrowseStar 2) initial_state))
  /\ exists r, r ∈ demo_table /\ ID r = 2.
Proof.
  assert (H2 : 2 ∈ bookmarks (step no_other no_wide demo_table
                                (mkWidgets BrowseSearch [] "") (BrowseStar 2)
                                initial_state))
    by (eapply bool_decide_eq_true_1; reflexivity).
  split; [exact H2|].
  exact (X16_bookmarks_are_table_ids no_other no_wide demo_table _
           (reachable_step _ _ _ (mkWidgets BrowseSearch [] "") (BrowseStar 2) _
              (reachable_initial _ _ _))
           2 H2).
Defined.

(** X17: when the ids of the table are pairwise distinct, the two counts
    shown to the user agree in every reachable state: the sidebar metric
    "Bookmarked for Review" equals the number of records the bookmarks page
    lists, and it never exceeds "Total Questions". *)
Theorem X17_bookmark_counts_agree
    (re_other : string -> option (string -> bool))
    (search_wide : string -> string -> bool)
    (df : list Question) (st : SessionState) :
  NoDup (map ID df) ->
  reachable re_other search_wide df st ->
  bookmarked_q st = length (bookmark_df df (bookmarks st))
  /\ (bookmarked_q st <= total_q df)%nat.
Proof.
  intros Hnd Hreach.
  assert (E : length (bookmark_df df (bookmarks st)) = size (bookmarks st)).
  { apply bookmark_count; [exact Hnd|].
    apply (reachable_bookmarks re_other search_wide df st Hreach). }
  unfold bookmarked_q, total_q. rewrite <- E. split; [reflexivity|].
  apply sublist_length. rewrite bookmark_df_filter. apply list_filter_sublist.
Qed.

Lemma X17_bookmark_counts_agree_witness :
  NoDup (map ID demo_table)
  /\ bookmarked_q (step no_other no_wide demo_table (mkWidgets Flashcards [] "")
                     FlashStar initial_state)
     = length (bookmark_df demo_table
                 (bookmarks (step no_other no_wide demo_table
                               (mkWidgets Flashcards [] "") FlashStar initial_state))).
Proof.
  assert (Hnd : NoDup (map ID demo_table)) by (eapply bool_decide_eq_true_1; reflexivity).
  split; [exact Hnd|].
  exact (proj1 (X17_bookmark_counts_agree no_other no_wide demo_table _ Hnd
                  (reachable_step _ _ _ (mkWidgets Flashcards [] "") FlashStar _
                     (reachable_initial _ _ _)))).
Defined.

(** ** Loading and the pages together *)

Lemma column_present (label : string) (df : DataFrame) :
  label ∈ columns df -> exists vs, column label df = Some vs.
Proof.
  unfold columns. induction df as [|[l vs] df IH]; simpl; intros H.
  - inversion H.
  - destruct (String.eqb_spec l label) as [-> | Hne]; [eauto|].
    apply elem_of_cons in H as [H | H]; [congruence | apply IH, H].
Qed.

(** X18: the file ends in the [KeyError] of the sidebar's [df['Category']]
    exactly when reading the CSV raised; the error box of the loader is
    shown and no page is rendered.  With the CSV missing the pages run on
    the demo table; with a CSV that lacks a required column they run on the
    empty table, below the loader's error box. *)
Theorem X18_unreadable_file_stops_the_script
    (re_other : string -> option (string -> bool))
    (search_wide : string -> string -> bool)
    (w : Widgets) (click : Click) (st : SessionState) :
  (forall e,
     app re_other search_wide (Existing (ReadRaises e)) w click st
     = ColumnKeyError ["Error loading data: " ++ e] "Category")
  /\ (forall src shown label,
        app re_other search_wide src w click st = ColumnKeyError shown label ->
        exists e, src = Existing (ReadRaises e))
  /\ app re_other search_wide Missing w click st
     = Ran [] (run re_other search_wide demo_table w click st)
  /\ (forall df,
        (exists c, c ∈ required_cols /\ c ∉ columns df) ->
        app re_other search_wide (Existing (ReadFrame df)) w click st
        = Ran ["CSV is missing required columns: ID, Category, Question, Answer"]
            (run re_other search_wide [] w click st)).
Proof.
  split; [reflexivity|]. split; [|split; [reflexivity|]].
  - intros [|[e | df]] shown label; [discriminate | eauto |].
    unfold app, load_data.
    destruct (forallb _ required_cols) eqn:E.
    + rewrite forallb_forall in E.
      assert (Hc : "Category" ∈ columns df).
      { apply (bool_decide_eq_true_1 _), E. right; left; reflexivity. }
      destruct (column_present _ _ Hc) as [vs Hvs]. cbn [frame]. rewrite Hvs.
      destruct (records df); discriminate.
    + discriminate.
  - intros df H. unfold app, load_data. rewrite (missing_column_detected df H).
    reflexivity.
Qed.

Lemma X18_unreadable_file_stops_the_script_witness :
  (exists c, c ∈ required_cols /\ c ∉ columns csv_without_answers)
  /\ app no_other no_wide (Existing (ReadFrame csv_without_answers))
       (mkWidgets Flashcards [] "") NoClick initial_state
     = Ran ["CSV is missing required columns: ID, Category, Question, Answer"]
         (run no_other no_wide [] (mkWidgets Flashcards [] "") NoClick initial_state).
Proof.
  assert (H : exists c, c ∈ required_cols /\ c ∉ columns csv_without_answers).
  { exists "Answer". split.
    - eapply bool_decide_eq_true_1. reflexivity.
    - eapply bool_decide_eq_false_1. reflexivity. }
  split; [exact H|].
  exact (proj2 (proj2 (proj2 (X18_unreadable_file_stops_the_script no_other no_wide
                                (mkWidgets Flashcards [] "") NoClick initial_state)))
           csv_without_answers H).
Defined.
